(** * fastify-supabase-boilerplate: the layered error pipeline

    A shallow embedding of the request pipeline of the boilerplate:

    - [SupabaseUserRepository] (src/infrastructure/database/SupabaseUserRepository.ts)
    - [UserService]            (src/application/services/UserService.ts)
    - [UserHandler], [userRoutes] (src/infrastructure/web/routes/user/)
    - the [/health] handler    (src/app.ts)
    - the response schemas the routes register, by which the server writes
      the body of a reply ([ResponseSchema])

    JavaScript values of type [any] are modelled by [JsValue]; an [async]
    method is a computation in the monad [M], which threads the world (the
    backing store, the clock and the trace of observable effects) and ends
    either by returning a value or by throwing a JavaScript error. *)

From Stdlib Require Import String Ascii List ZArith Bool Lia.
Import ListNotations.
Local Open Scope string_scope.
Local Open Scope Z_scope.

Set Implicit Arguments.
Set Warnings "-register-all".

(* ===================================================================== *)
(** ** JavaScript values                                                  *)
(* ===================================================================== *)

(** A [Date] object is its time value.  [DateParse s] stands for the Date
    whose time value is [Date.parse(s)] (implementation defined, possibly
    NaN), [DateMs t] for the Date of [t] milliseconds, [DateInvalid] for the
    Date whose time value is NaN ("Invalid Date"). *)
Inductive JsDate : Type :=
| DateParse (s : string)
| DateMs (t : Z)
| DateInvalid.

(** The values a row, a request parameter or a response body can hold.
    Numbers are the integral ones plus NaN; objects are property lists in
    insertion order. *)
Inductive JsValue : Type :=
| JUndefined
| JNull
| JBool (b : bool)
| JNum (n : Z)
| JNaN
| JStr (s : string)
| JDate (d : JsDate)
| JObj (props : list (string * JsValue)).

Module Js.

(** ToBoolean: the falsy values are undefined, null, false, 0, NaN and
    the empty string. *)
Definition truthy (v : JsValue) : bool :=
  match v with
  | JUndefined | JNull | JNaN => false
  | JBool b => b
  | JNum n => negb (n =? 0)
  | JStr s => negb (String.eqb s "")
  | JDate _ | JObj _ => true
  end.

(** The [typeof] operator. *)
Definition typeof (v : JsValue) : string :=
  match v with
  | JUndefined => "undefined"
  | JNull => "object"
  | JBool _ => "boolean"
  | JNum _ | JNaN => "number"
  | JStr _ => "string"
  | JDate _ | JObj _ => "object"
  end.

Fixpoint lookup (k : string) (props : list (string * JsValue)) : option JsValue :=
  match props with
  | [] => None
  | (k', v) :: rest => if String.eqb k k' then Some v else lookup k rest
  end.

(** Property read [v.k] on a non-nullish value: a missing property, and
    any property of a primitive, read as [undefined]. *)
Definition get (v : JsValue) (k : string) : JsValue :=
  match v with
  | JObj props =>
      match lookup k props with
      | Some x => x
      | None => JUndefined
      end
  | _ => JUndefined
  end.

Definition has (v : JsValue) (k : string) : bool :=
  match v with
  | JObj props =>
      match lookup k props with
      | Some _ => true
      | None => false
      end
  | _ => false
  end.

Definition keys (v : JsValue) : list string :=
  match v with
  | JObj props => map fst props
  | _ => []
  end.

(** [new Date(v)]: a string is parsed, a Date is copied, [null] and the
    booleans go through ToNumber, a number is a time value when it lies
    within 8.64e15 milliseconds of the epoch; [undefined], NaN, a number out
    of that range and plain objects give an Invalid Date. *)
Definition newDate (v : JsValue) : JsDate :=
  match v with
  | JStr s => DateParse s
  | JDate d => d
  | JNum n => if Z.abs n <=? 8640000000000000 then DateMs n else DateInvalid
  | JNull => DateMs 0
  | JBool b => DateMs (if b then 1 else 0)
  | JUndefined | JNaN | JObj _ => DateInvalid
  end.

End Js.

(* ===================================================================== *)
(** ** Errors                                                             *)
(* ===================================================================== *)

(** The error object of the Supabase client ([PostgrestError]). *)
Record PostgrestError : Type := mkPostgrestError {
  pg_message : string;
  pg_code : string
}.

(** A thrown JavaScript error as the handlers inspect it: [error.name],
    [error.message], [error.code] and the [originalError] a
    [DatabaseError] carries. *)
Module Err.
Record t : Type := mk {
  name : string;
  message : string;
  code : option Z;
  originalError : option PostgrestError
}.
End Err.
Definition JsError : Type := Err.t.

(** [class ApplicationError]: [this.name = this.constructor.name], the code
    defaults to 500. *)
Definition ApplicationError (msg : string) (c : option Z) : JsError :=
  {| Err.name := "ApplicationError";
     Err.message := msg;
     Err.code := Some (match c with Some n => n | None => 500 end);
     Err.originalError := None |}.

(** [class DatabaseError]: [this.name = 'DatabaseError']. *)
Definition DatabaseError (msg : string) (orig : option PostgrestError) : JsError :=
  {| Err.name := "DatabaseError";
     Err.message := msg;
     Err.code := None;
     Err.originalError := orig |}.

(** [new Error(msg)]. *)
Definition PlainError (msg : string) : JsError :=
  {| Err.name := "Error"; Err.message := msg;
     Err.code := None; Err.originalError := None |}.

(* ===================================================================== *)
(** ** The world and the effect monad                                     *)
(* ===================================================================== *)

(** What a request leaves behind: queries sent to the store client and
    lines written to the console or to the request logger. *)
Inductive Event : Type :=
| EvSelect (table column value : string)
| EvInsert (table : string) (row : JsValue)
| EvHeadCount (table : string)
| EvConsole (level text : string)
| EvRequestLog (level text : string) (err : option JsError).

(** How a call ends: with a value, or with a thrown error.  The values
    thrown in this code base are Error objects ([ApplicationError],
    [DatabaseError], [Error]), and so is every thrown value here; a
    rejection with a value that is no object ([undefined], [null]) is
    outside this model. *)
Inductive Outcome (A : Type) : Type :=
| Returned (a : A)
| Thrown (e : JsError).
Arguments Returned {A} a.
Arguments Thrown {A} e.

Section Effects.

(** The state of the backing store. *)
Variable Store : Type.

Record World : Type := mkWorld {
  store : Store;
  now_iso : string;          (* [new Date().toISOString()] *)
  trace : list Event
}.

Definition M (A : Type) : Type := World -> Outcome A * World.

Definition ret {A} (a : A) : M A := fun w => (Returned a, w).

Definition throw {A} (e : JsError) : M A := fun w => (Thrown e, w).

Definition bind {A B} (m : M A) (k : A -> M B) : M B :=
  fun w =>
    match m w with
    | (Returned a, w') => k a w'
    | (Thrown e, w') => (Thrown e, w')
    end.

(** [try { m } catch (error) { h error }]. *)
Definition try_catch {A} (m : M A) (h : JsError -> M A) : M A :=
  fun w =>
    match m w with
    | (Returned a, w') => (Returned a, w')
    | (Thrown e, w') => h e w'
    end.

Definition emit (ev : Event) : M unit :=
  fun w => (Returned tt,
            {| store := store w; now_iso := now_iso w; trace := trace w ++ [ev] |}).

Definition read_clock : M string := fun w => (Returned (now_iso w), w).

End Effects.

Arguments ret {Store A} a.
Arguments throw {Store A} e.
Arguments emit {Store} ev.
Arguments read_clock {Store}.

Declare Scope js_scope.
Delimit Scope js_scope with js.
Notation "x <- m ;; k" := (bind m (fun x => k))
  (at level 61, m at next level, right associativity) : js_scope.
Notation "m ;;; k" := (bind m (fun _ => k))
  (at level 61, right associativity) : js_scope.
Local Open Scope js_scope.

(* ===================================================================== *)
(** ** The store client                                                   *)
(* ===================================================================== *)

(** The [{ data, error }] pair every query of the client resolves to. *)
Record PostgrestResponse : Type := mkResponse {
  data : JsValue;
  error : option PostgrestError
}.

(** The three query shapes the code sends.  Reads leave the store as it
    is; each call resolves to a response or rejects. *)
Record SupabaseClient (Store : Type) : Type := mkClient {
  (* [.from(t).select('*').eq(col, v).maybeSingle()] *)
  select_eq_maybeSingle : string -> string -> string -> Store -> Outcome PostgrestResponse;
  (* [.from(t).insert(row).select("*").single()] *)
  insert_select_single : string -> JsValue -> Store -> Outcome PostgrestResponse * Store;
  (* [.from(t).select('id', { count: 'exact', head: true }).limit(1)] *)
  select_head_count : string -> Store -> Outcome PostgrestResponse
}.

(** [interface User] (src/domain/user.ts).  The fields a row provides are
    typed [string] in the source but hold whatever the row holds. *)
Module User.
Record t : Type := mk {
  id : JsValue;
  username : JsValue;
  email : JsValue;
  password : JsValue;
  created_at : JsDate;
  updated_at : JsDate
}.
End User.

(** [CreateUserDTO], the request body after the route's body schema
    ([email] is the one required string). *)
Module CreateUserDTO.
Record t : Type := mk {
  email : string;
  username : JsValue;
  password : JsValue
}.
End CreateUserDTO.

(** [interface IUserRepository], the collaborator the service is built on. *)
Module IUserRepository.
Record t (Store : Type) : Type := mk {
  findById : string -> M Store (option User.t);
  findByEmail : string -> M Store (option User.t);
  create : CreateUserDTO.t -> M Store User.t
}.
End IUserRepository.

(* ===================================================================== *)
(** ** SupabaseUserRepository                                             *)
(* ===================================================================== *)

Module SupabaseUserRepository.

Definition tableName : string := "users".

(** [mapToDomain(dbUser: any): User | null]. *)
Definition mapToDomain (dbUser : JsValue) : option User.t :=
  if negb (Js.truthy dbUser) then None
  else Some {| User.id := Js.get dbUser "id";
               User.email := Js.get dbUser "email";
               User.username := Js.get dbUser "username";
               User.password := Js.get dbUser "password";
               User.updated_at := Js.newDate (Js.get dbUser "updated_at");
               User.created_at := Js.newDate (Js.get dbUser "created_at") |}.

(** The [dbData] object [create] builds from the DTO. *)
Definition dbData_of (userData : CreateUserDTO.t) : JsValue :=
  JObj [("email", JStr (CreateUserDTO.email userData));
        ("username", CreateUserDTO.username userData);
        ("password", CreateUserDTO.password userData)].

Definition unique_violation_message : string :=
  "Unique constraint violation (e.g., email already exists)".

Section WithClient.

Variable Store : Type.
Variable supabase : SupabaseClient Store.

(** Awaiting a query: the call is recorded, the store answers. *)
Definition query_maybeSingle (column value : string) : M Store PostgrestResponse :=
  emit (EvSelect tableName column value) ;;;
  (fun w => (select_eq_maybeSingle supabase tableName column value (store w), w)).

Definition query_insert (row : JsValue) : M Store PostgrestResponse :=
  emit (EvInsert tableName row) ;;;
  (fun w =>
     let (r, s') := insert_select_single supabase tableName row (store w) in
     (r, {| store := s'; now_iso := now_iso w; trace := trace w |})).

(** [handleError(error, context)]. *)
Definition handleError (err : option PostgrestError) (context : string) : M Store unit :=
  match err with
  | Some e =>
      emit (EvConsole "error"
              ("Supabase error during " ++ context ++ ": " ++ pg_message e
               ++ " (Code: " ++ pg_code e ++ ")")) ;;;
      throw (DatabaseError ("Database operation failed: " ++ context) (Some e))
  | None => ret tt
  end.

Definition findById (id : string) : M Store (option User.t) :=
  r <- query_maybeSingle "id" id ;;
  handleError (error r) ("findById " ++ id) ;;;
  ret (mapToDomain (data r)).

Definition findByEmail (email : string) : M Store (option User.t) :=
  r <- query_maybeSingle "email" email ;;
  handleError (error r) ("findByEmail " ++ email) ;;;
  ret (mapToDomain (data r)).

Definition create (userData : CreateUserDTO.t) : M Store User.t :=
  let dbData := dbData_of userData in
  r <- query_insert dbData ;;
  (if match error r with Some _ => true | None => false end
      || negb (Js.truthy (data r))
   then
     emit (EvConsole "error"
             ("Supabase error during create: "
              ++ match error r with Some e => pg_message e | None => "undefined" end)) ;;;
     (match error r with
      | Some e =>
          if String.eqb (pg_code e) "23505"
          then throw (DatabaseError unique_violation_message (Some e))
          else ret tt
      | None => ret tt
      end) ;;;
     handleError (error r)
       ("create user with email " ++ CreateUserDTO.email userData) ;;;
     (if negb (Js.truthy (data r))
      then throw (DatabaseError "User creation failed: No data returned from database" None)
      else ret tt)
   else ret tt) ;;;
  match mapToDomain (data r) with
  | None => throw (DatabaseError "Failed to map created user data to domain object." None)
  | Some mappedUser => ret mappedUser
  end.

Definition repository : IUserRepository.t Store :=
  {| IUserRepository.findById := findById;
     IUserRepository.findByEmail := findByEmail;
     IUserRepository.create := create |}.

End WithClient.

End SupabaseUserRepository.

(* ===================================================================== *)
(** ** UserService                                                        *)
(* ===================================================================== *)

Module UserService.

Section WithRepository.

Variable Store : Type.
Variable userRepository : IUserRepository.t Store.

(** The guard of [getUserById]:
    [!id || typeof id !== 'string' || id.length < 1]. *)
Definition invalid_id (id : JsValue) : bool :=
  negb (Js.truthy id)
  || negb (String.eqb (Js.typeof id) "string")
  || match id with
     | JStr s => Nat.ltb (String.length s) 1
     | _ => false
     end.

(** The string the guard lets through ([id] is a string past it). *)
Definition id_string (id : JsValue) : string :=
  match id with
  | JStr s => s
  | _ => ""
  end.

Definition getUserById (id : JsValue) : M Store (option User.t) :=
  if invalid_id id
  then throw (ApplicationError "Invalid user ID format provided." (Some 400))
  else
    user <- IUserRepository.findById userRepository (id_string id) ;;
    match user with
    | None => ret None
    | Some u => ret (Some u)
    end.

Definition createUser (userData : CreateUserDTO.t) : M Store User.t :=
  emit (EvConsole "log" "userData: ") ;;;
  existingUser <- IUserRepository.findByEmail userRepository
                    (CreateUserDTO.email userData) ;;
  match existingUser with
  | Some _ =>
      throw (ApplicationError "User with this email already exists." (Some 409))
  | None =>
      try_catch
        (newUser <- IUserRepository.create userRepository userData ;;
         ret newUser)
        (fun dbError =>
           emit (EvConsole "error" "Database error during user creation:") ;;;
           throw (ApplicationError
                    "Failed to create user due to a database issue." (Some 500)))
  end.

End WithRepository.

End UserService.

(* ===================================================================== *)
(** ** UserHandler                                                        *)
(* ===================================================================== *)

(** What a handler sends: the status code and the payload handed to
    [reply.send]. *)
Record Reply : Type := mkReply {
  statusCode : Z;
  payload : JsValue
}.

(** The reply helpers of [@fastify/sensible], with the body shape the
    plugin's error schemas declare ([statusCode], [error], [message]). *)
Module Sensible.

Definition httpError (status : Z) (label msg : string) : Reply :=
  {| statusCode := status;
     payload := JObj [("statusCode", JNum status);
                      ("error", JStr label);
                      ("message", JStr msg)] |}.

Definition badRequest (msg : string) : Reply := httpError 400 "Bad Request" msg.
Definition notFound (msg : string) : Reply := httpError 404 "Not Found" msg.
Definition conflict (msg : string) : Reply := httpError 409 "Conflict" msg.
Definition internalServerError (msg : string) : Reply :=
  httpError 500 "Internal Server Error" msg.

End Sensible.

(* ===================================================================== *)
(** ** Response schemas                                                   *)
(* ===================================================================== *)

(** When a route registers a response schema for the status of a reply,
    the server writes the body by that schema: only the declared
    properties, in the order of the schema.  A declared property the payload
    leaves undefined is skipped, unless the schema requires it: then, and
    when a value cannot be written under its declared type, nothing of the
    payload is sent and the server answers 500.  A status without a schema
    has its payload written as it is. *)
Module ResponseSchema.

Inductive PropertyType : Type :=
| TString                 (* [{ type: 'string' }], any format but date-time *)
| TDateTime               (* [{ type: 'string', format: 'date-time' }] *)
| TConst (v : JsValue).   (* [{ const: v }]: the constant is what is written *)

Record t : Type := mk {
  properties : list (string * PropertyType);
  required : list string
}.

(** The error schemas the sensible plugin adds ([httpErrorBadRequest],
    [httpErrorNotFound], [httpErrorConflict],
    [httpErrorInternalServerError]). *)
Definition httpError (status : Z) (label : string) : t :=
  {| properties := [("statusCode", TConst (JNum status));
                    ("error", TConst (JStr label));
                    ("message", TString)];
     required := ["statusCode"; "error"; "message"] |}.

Definition httpErrorBadRequest : t := httpError 400 "Bad Request".
Definition httpErrorNotFound : t := httpError 404 "Not Found".
Definition httpErrorConflict : t := httpError 409 "Conflict".
Definition httpErrorInternalServerError : t := httpError 500 "Internal Server Error".

Section Serializer.

(** What the serializer of the server writes for a value under
    [type: 'string'] and under [format: 'date-time'] (nothing when it
    throws), and the message of the error it throws for a required
    property that is missing or a value it cannot write. *)
Variable asString : JsValue -> option JsValue.
Variable asDateTime : JsValue -> option JsValue.
Variable failure_message : string -> string.

Definition write (ty : PropertyType) (v : JsValue) : option JsValue :=
  match ty with
  | TString => asString v
  | TDateTime => asDateTime v
  | TConst c => Some c
  end.

Fixpoint serialize_properties (props : list (string * PropertyType))
         (required : list string) (payload : JsValue)
  : list (string * JsValue) + string :=
  match props with
  | [] => inl []
  | (k, ty) :: rest =>
      match Js.get payload k with
      | JUndefined =>
          if existsb (String.eqb k) required then inr k
          else serialize_properties rest required payload
      | v =>
          match write ty v with
          | None => inr k
          | Some written =>
              match serialize_properties rest required payload with
              | inl body => inl ((k, written) :: body)
              | inr failed => inr failed
              end
          end
      end
  end.

Definition serialize (schema : t) (payload : JsValue)
  : list (string * JsValue) + string :=
  serialize_properties (properties schema) (required schema) payload.

(** The response for a reply, by the schemas of the route. *)
Definition respond (schemas : Z -> option t) (reply : Reply) : Reply :=
  match schemas (statusCode reply) with
  | None => reply
  | Some schema =>
      match serialize schema (payload reply) with
      | inl body => {| statusCode := statusCode reply; payload := JObj body |}
      | inr failed => Sensible.internalServerError (failure_message failed)
      end
  end.

End Serializer.

End ResponseSchema.

Module UserHandler.

(** [mapUserToResponse(user)]. *)
Definition mapUserToResponse (user : User.t) : JsValue :=
  JObj [("id", User.id user);
        ("email", User.email user);
        ("created_at", JDate (Js.newDate (JDate (User.created_at user))))].

(** [error.code === n], the test behind [case n:] and [error.code === 400]. *)
Definition code_is (err : JsError) (n : Z) : bool :=
  match Err.code err with
  | Some c => c =? n
  | None => false
  end.

(** The [catch] block of [createUser], after the log line. *)
Definition createUser_catch (err : JsError) : Reply :=
  let after_switch :=
    if String.eqb (Err.name err) "DatabaseError"
    then Sensible.internalServerError
           "A database error occurred while creating the user."
    else Sensible.internalServerError
           "An unexpected error occurred while creating the user." in
  if String.eqb (Err.name err) "ApplicationError"
  then if code_is err 409 then Sensible.conflict (Err.message err)
       else if code_is err 400 then Sensible.badRequest (Err.message err)
       else after_switch
  else after_switch.

(** The [catch] block of [getUserById], after the log line. *)
Definition getUserById_catch (err : JsError) : Reply :=
  if String.eqb (Err.name err) "ApplicationError" && code_is err 400
  then Sensible.badRequest (Err.message err)
  else if String.eqb (Err.name err) "DatabaseError"
  then Sensible.internalServerError
         "A database error occurred while fetching the user."
  else Sensible.internalServerError
         "An unexpected error occurred while fetching the user.".

Section WithService.

Variable Store : Type.
Variable userRepository : IUserRepository.t Store.

(** Handler for POST /users; [body] is [request.body]. *)
Definition createUser (body : CreateUserDTO.t) : M Store Reply :=
  try_catch
    (newUserDomain <- UserService.createUser userRepository body ;;
     let responseUser := mapUserToResponse newUserDomain in
     ret {| statusCode := 201; payload := responseUser |})
    (fun err =>
       emit (EvRequestLog "error" "Error creating user" (Some err)) ;;;
       ret (createUser_catch err)).

(** Handler for GET /users/:userId; [userId] is [request.params.userId]. *)
Definition getUserById (userId : string) : M Store Reply :=
  try_catch
    (userDomain <- UserService.getUserById userRepository (JStr userId) ;;
     match userDomain with
     | None =>
         ret (Sensible.notFound ("User with ID " ++ userId ++ " not found."))
     | Some u =>
         emit (EvRequestLog "debug" "DATA: " None) ;;;
         let responseUser := mapUserToResponse u in
         ret {| statusCode := 200; payload := responseUser |}
     end)
    (fun err =>
       emit (EvRequestLog "error" "Error fetching user by ID" (Some err)) ;;;
       ret (getUserById_catch err)).

End WithService.

End UserHandler.

(* ===================================================================== *)
(** ** userRoutes                                                         *)
(* ===================================================================== *)

Module UserRoutes.

(** A schema for the URL parameters decides which [userId] strings the
    transport layer lets through to the handler. *)
Definition ParamsSchema : Type := string -> bool.

(** The options of the GET [/:userId] route: the [params] entry is
    commented out in the source, so no parameter schema is registered. *)
Definition get_user_params : option ParamsSchema := None.

Section WithClient.

Variable Store : Type.
Variable supabaseClient : SupabaseClient Store.

(** The manual wiring: client, then repository, then service and handler. *)
Definition userRepository : IUserRepository.t Store :=
  SupabaseUserRepository.repository supabaseClient.

(** A GET [/:userId] request up to the reply of the handler: parameter
    validation (when a schema is registered), then the handler.  The body
    the server writes for that reply is [get_user_response]. *)
Definition get_user (userId : string) : M Store Reply :=
  match get_user_params with
  | Some schema =>
      if schema userId
      then UserHandler.getUserById userRepository userId
      else ret (Sensible.badRequest "params/userId must match the schema")
  | None => UserHandler.getUserById userRepository userId
  end.

(** A POST [/] request whose body passed the route's body schema. *)
Definition post_user (body : CreateUserDTO.t) : M Store Reply :=
  UserHandler.createUser userRepository body.

End WithClient.

(** The [response] entries of the two routes.  POST: 201 declares and
    requires [id] and [email]; 400, 409 and 500 refer to the error schemas.
    GET: 200 is the user response schema built from [userCoreSchema]
    ([id], [email], [created_at], all required); 400, 404 and 500 refer to
    the error schemas. *)
Definition post_response_schemas (status : Z) : option ResponseSchema.t :=
  if status =? 201
  then Some {| ResponseSchema.properties :=
                 [("id", ResponseSchema.TString); ("email", ResponseSchema.TString)];
               ResponseSchema.required := ["id"; "email"] |}
  else if status =? 400 then Some ResponseSchema.httpErrorBadRequest
  else if status =? 409 then Some ResponseSchema.httpErrorConflict
  else if status =? 500 then Some ResponseSchema.httpErrorInternalServerError
  else None.

Definition get_response_schemas (status : Z) : option ResponseSchema.t :=
  if status =? 200
  then Some {| ResponseSchema.properties :=
                 [("id", ResponseSchema.TString);
                  ("email", ResponseSchema.TString);
                  ("created_at", ResponseSchema.TDateTime)];
               ResponseSchema.required := ["id"; "email"; "created_at"] |}
  else if status =? 400 then Some ResponseSchema.httpErrorBadRequest
  else if status =? 404 then Some ResponseSchema.httpErrorNotFound
  else if status =? 500 then Some ResponseSchema.httpErrorInternalServerError
  else None.

Section Responses.

Variable Store : Type.
Variable supabaseClient : SupabaseClient Store.
Variable asString : JsValue -> option JsValue.
Variable asDateTime : JsValue -> option JsValue.
Variable failure_message : string -> string.

(** What the server answers to a POST [/]: the reply of the handler,
    written by the response schemas of the route. *)
Definition post_user_response (body : CreateUserDTO.t) : M Store Reply :=
  reply <- post_user supabaseClient body ;;
  ret (ResponseSchema.respond asString asDateTime failure_message
         post_response_schemas reply).

(** What the server answers to a GET [/:userId]. *)
Definition get_user_response (userId : string) : M Store Reply :=
  reply <- get_user supabaseClient userId ;;
  ret (ResponseSchema.respond asString asDateTime failure_message
         get_response_schemas reply).

End Responses.

End UserRoutes.

(* ===================================================================== *)
(** ** The health endpoint (src/app.ts)                                   *)
(* ===================================================================== *)

Module Health.

Section WithClient.

Variable Store : Type.
Variable supabase : SupabaseClient Store.

Definition query_head_count : M Store PostgrestResponse :=
  emit (EvHeadCount "users") ;;;
  (fun w => (select_head_count supabase "users" (store w), w)).

(** The handler of GET /health; its result is the status and the object
    it hands to [reply.send], the body the server writes is [get_health]. *)
Definition handler : M Store Reply :=
  try_catch
    (r <- query_head_count ;;
     (match error r with
      | Some e =>
          throw (PlainError ("Supabase reachability check failed: " ++ pg_message e))
      | None => ret tt
      end) ;;;
     now <- read_clock ;;
     ret {| statusCode := 200;
            payload := JObj [("status", JStr "ok"); ("timestamp", JStr now)] |})
    (fun err =>
       emit (EvRequestLog "error" "Health check failed" (Some err)) ;;;
       now <- read_clock ;;
       ret {| statusCode := 503;
              payload := JObj [("status", JStr "error");
                               ("message", JStr "Service unavailable");
                               ("error", JStr (Err.message err));
                               ("timestamp", JStr now)] |}).

(** The [response] entry of the route: 200 declares [status] and
    [timestamp], 503 declares [status], [message] and [timestamp]; nothing
    is required. *)
Definition response_schemas (status : Z) : option ResponseSchema.t :=
  if status =? 200
  then Some {| ResponseSchema.properties :=
                 [("status", ResponseSchema.TString);
                  ("timestamp", ResponseSchema.TDateTime)];
               ResponseSchema.required := [] |}
  else if status =? 503
  then Some {| ResponseSchema.properties :=
                 [("status", ResponseSchema.TString);
                  ("message", ResponseSchema.TString);
                  ("timestamp", ResponseSchema.TDateTime)];
               ResponseSchema.required := [] |}
  else None.

Variable asString : JsValue -> option JsValue.
Variable asDateTime : JsValue -> option JsValue.
Variable failure_message : string -> string.

(** What the server answers to GET /health: the reply of the handler,
    written by the response schemas of the route. *)
Definition get_health : M Store Reply :=
  reply <- handler ;;
  ret (ResponseSchema.respond asString asDateTime failure_message
         response_schemas reply).

End WithClient.

End Health.

(* ===================================================================== *)
(** ** An in-memory store                                                 *)
(* ===================================================================== *)

(** A reference implementation of the client over a list of rows, used to
    run the pipeline on concrete requests: [email] is unique, identifiers
    and timestamps are assigned by the store. *)
Module MemStore.

Record t : Type := mk {
  rows : list JsValue;
  reachable : bool;
  fresh_ids : list string;
  server_time : string
}.

Definition field_is (column value : string) (row : JsValue) : bool :=
  match Js.get row column with
  | JStr s => String.eqb s value
  | _ => false
  end.

Definition network_error : PostgrestError :=
  {| pg_message := "TypeError: fetch failed"; pg_code := "" |}.

Definition select_eq_maybeSingle (table column value : string) (s : t)
  : Outcome PostgrestResponse :=
  if reachable s then
    match filter (field_is column value) (rows s) with
    | [] => Returned {| data := JNull; error := None |}
    | [row] => Returned {| data := row; error := None |}
    | _ => Returned {| data := JNull;
                       error := Some {| pg_message := "JSON object requested, multiple (or no) rows returned";
                                        pg_code := "PGRST116" |} |}
    end
  else Returned {| data := JNull; error := Some network_error |}.

Definition insert_select_single (table : string) (row : JsValue) (s : t)
  : Outcome PostgrestResponse * t :=
  if reachable s then
    if existsb (fun r => match Js.get row "email" with
                         | JStr e => field_is "email" e r
                         | _ => false
                         end) (rows s)
    then (Returned {| data := JNull;
                      error := Some {| pg_message := "duplicate key value violates unique constraint";
                                       pg_code := "23505" |} |}, s)
    else
      match fresh_ids s with
      | [] => (Returned {| data := JNull;
                           error := Some {| pg_message := "null value in column id";
                                            pg_code := "23502" |} |}, s)
      | i :: ids =>
          let stored := JObj [("id", JStr i);
                              ("email", Js.get row "email");
                              ("username", Js.get row "username");
                              ("password", Js.get row "password");
                              ("created_at", JStr (server_time s));
                              ("updated_at", JStr (server_time s))] in
          (Returned {| data := stored; error := None |},
           {| rows := rows s ++ [stored]; reachable := true;
              fresh_ids := ids; server_time := server_time s |})
      end
  else (Returned {| data := JNull; error := Some network_error |}, s).

Definition select_head_count (table : string) (s : t) : Outcome PostgrestResponse :=
  if reachable s then Returned {| data := JNull; error := None |}
  else Returned {| data := JNull; error := Some network_error |}.

Definition client : SupabaseClient t :=
  mkClient select_eq_maybeSingle insert_select_single select_head_count.

(** A store holding one user, and the same store out of reach. *)
Definition alice_row : JsValue :=
  JObj [("id", JStr "7d3f1c1e-0000-4000-8000-000000000001");
        ("email", JStr "alice@example.com");
        ("username", JStr "alice");
        ("password", JStr "correct horse");
        ("created_at", JStr "2024-05-01T10:00:00.000Z");
        ("updated_at", JStr "2024-05-01T10:00:00.000Z")].

Definition one_user : t :=
  {| rows := [alice_row]; reachable := true;
     fresh_ids := ["7d3f1c1e-0000-4000-8000-000000000002"];
     server_time := "2024-06-01T08:30:00.000Z" |}.

(** The same store with no identifier left to assign: every insert fails. *)
Definition exhausted : t :=
  {| rows := [alice_row]; reachable := true;
     fresh_ids := []; server_time := "2024-06-01T08:30:00.000Z" |}.

(** A store whose only row lacks every required field but the id. *)
Definition bare_row : JsValue := JObj [("id", JStr "u1")].

Definition bare_store : t :=
  {| rows := [bare_row]; reachable := true;
     fresh_ids := []; server_time := "2024-06-01T08:30:00.000Z" |}.

Definition unreachable : t :=
  {| rows := [alice_row]; reachable := false;
     fresh_ids := []; server_time := "2024-06-01T08:30:00.000Z" |}.

Definition world_of (s : t) : World t :=
  {| store := s; now_iso := "2024-06-01T08:30:00.000Z"; trace := [] |}.

Definition bob : CreateUserDTO.t :=
  {| CreateUserDTO.email := "bob@example.com";
     CreateUserDTO.username := JStr "bob";
     CreateUserDTO.password := JStr "hunter2hunter2" |}.

Definition alice_again : CreateUserDTO.t :=
  {| CreateUserDTO.email := "alice@example.com";
     CreateUserDTO.username := JStr "alice2";
     CreateUserDTO.password := JStr "another password" |}.

End MemStore.

(* ===================================================================== *)
(** ** Specification vocabulary                                           *)
(* ===================================================================== *)

(** The identifier precondition in the words of the contract: a
    non-empty string. *)
Definition nonempty_string (id : JsValue) : bool :=
  match id with
  | JStr s => negb (String.eqb s "")
  | _ => false
  end.

(** The fields an entity row is required to carry. *)
Definition required_fields : list string :=
  ["id"; "email"; "username"; "password"; "created_at"; "updated_at"].

Definition well_formed_row (row : JsValue) : bool :=
  forallb (fun k => match Js.get row k with JStr _ => true | _ => false end)
          required_fields.

Definition lacks_required_field (row : JsValue) : bool :=
  existsb (fun k => negb (Js.has row k)) required_fields.

(** The storage kind of a [DatabaseError]: the class has no kind field,
    the unique violation is told apart by its message. *)
Inductive StorageKind : Type := UniqueViolation | UnknownKind.

Definition storage_kind (e : JsError) : option StorageKind :=
  if String.eqb (Err.name e) "DatabaseError"
  then if String.eqb (Err.message e) SupabaseUserRepository.unique_violation_message
       then Some UniqueViolation
       else Some UnknownKind
  else None.

(** The status code a handler run answered with. *)
Definition statusCode_of_run {Store : Type} (r : Outcome Reply * World Store)
  : option Z :=
  match fst r with
  | Returned rep => Some (statusCode rep)
  | Thrown _ => None
  end.

(** The payload a handler run sent ([undefined] when it threw). *)
Definition payload_of_run {Store : Type} (r : Outcome Reply * World Store)
  : JsValue :=
  match fst r with
  | Returned rep => payload rep
  | Thrown _ => JUndefined
  end.

(** The message a reply built by the error helpers carries. *)
Definition reply_message (r : Reply) : JsValue := Js.get (payload r) "message".

(** The world after some more events were recorded. *)
Definition with_events {Store : Type} (w : World Store) (evs : list Event)
  : World Store :=
  {| store := store w; now_iso := now_iso w; trace := trace w ++ evs |}.

Definition is_insert (ev : Event) : bool :=
  match ev with
  | EvInsert _ _ => true
  | _ => false
  end.

(** The two generic messages each handler falls back to. *)
Definition generic_create_message (m : JsValue) : Prop :=
  m = JStr "A database error occurred while creating the user."
  \/ m = JStr "An unexpected error occurred while creating the user.".

Definition generic_fetch_message (m : JsValue) : Prop :=
  m = JStr "A database error occurred while fetching the user."
  \/ m = JStr "An unexpected error occurred while fetching the user.".

(** A repository every method of which throws a given error. *)
Definition throwing_repository (e : JsError) : IUserRepository.t unit :=
  {| IUserRepository.findById := fun _ => throw e;
     IUserRepository.findByEmail := fun _ => throw e;
     IUserRepository.create := fun _ => throw e |}.

(** The events that are queries sent to the store. *)
Definition is_store_query (ev : Event) : bool :=
  match ev with
  | EvSelect _ _ _ | EvInsert _ _ | EvHeadCount _ => true
  | EvConsole _ _ | EvRequestLog _ _ _ => false
  end.

(** A client that loses the race: the lookup sees no row, the insert then
    hits the unique constraint. *)
Definition lost_race_client : SupabaseClient unit :=
  mkClient
    (fun _ _ _ _ => Returned {| data := JNull; error := None |})
    (fun _ _ s =>
       (Returned {| data := JNull;
                    error := Some {| pg_message := "duplicate key value violates unique constraint";
                                     pg_code := "23505" |} |}, s))
    (fun _ _ => Returned {| data := JNull; error := None |}).

Definition unit_world : World unit :=
  {| store := tt; now_iso := "2024-06-01T08:30:00.000Z"; trace := [] |}.

(** The world in which [createUser] reaches [create]. *)
Definition after_precheck {Store : Type} (userData : CreateUserDTO.t)
           (w : World Store) : World Store :=
  with_events w [EvConsole "log" "userData: ";
                 EvSelect "users" "email" (CreateUserDTO.email userData)].

(** The pre-check of [createUser] came back clean: the lookup by email
    resolved with no error and no row. *)
Definition precheck_clean {Store : Type} (client : SupabaseClient Store)
           (email : string) (s : Store) : bool :=
  match select_eq_maybeSingle client "users" "email" email s with
  | Returned r =>
      match error r with
      | None => negb (Js.truthy (data r))
      | Some _ => false
      end
  | Thrown _ => false
  end.

(** The insert came back with a row and no error. *)
Definition insert_succeeded (o : Outcome PostgrestResponse) : bool :=
  match o with
  | Returned r =>
      match error r with
      | None => Js.truthy (data r)
      | Some _ => false
      end
  | Thrown _ => false
  end.

(* ===================================================================== *)
(** ** The client singleton (src/infrastructure/database/supabaseClient.ts)
       and the plugin that decorates the server with it                   *)
(* ===================================================================== *)

Module SupabaseSingleton.

(** [config.supabase]. *)
Record Config : Type := mkConfig {
  url : string;
  anonKey : string
}.

(** The state the two functions touch: the module variable
    [supabaseInstance] and the Fastify instance. *)
Record State (Client Fastify : Type) : Type := mkState {
  supabaseInstance : option Client;
  fastify : Fastify
}.

Section WithLibraries.

Variable Client : Type.
Variable Fastify : Type.

(** [createClient(url, anonKey, options)] of the Supabase library: a
    client, or an exception. *)
Variable createClient : string -> string -> Outcome Client.

(** [fastify.decorate(name, value)]: may throw (the name is taken). *)
Variable decorate : string -> Client -> Fastify -> Outcome unit * Fastify.

Definition set_instance (c : Client) : M (State Client Fastify) unit :=
  fun w =>
    (Returned tt,
     {| store := {| supabaseInstance := Some c; fastify := fastify (store w) |};
        now_iso := now_iso w; trace := trace w |}).

(** [getSupabaseClient()]. *)
Definition getSupabaseClient (config : Config) : M (State Client Fastify) Client :=
  fun w =>
    match supabaseInstance (store w) with
    | Some inst => (Returned inst, w)
    | None =>
        if String.eqb (url config) "" || String.eqb (anonKey config) ""
        then
          (emit (EvConsole "error"
                   "❌ Supabase URL or Anon Key is missing in configuration.") ;;;
           throw (PlainError "Supabase URL or Anon Key is missing in configuration.")) w
        else
          match createClient (url config) (anonKey config) with
          | Returned c =>
              (set_instance c ;;;
               emit (EvConsole "log" "🔑 Supabase client initialized successfully.") ;;;
               ret c) w
          | Thrown e =>
              (emit (EvConsole "error" "❌ Failed to create Supabase client:") ;;;
               throw e) w
          end
    end.

Definition call_decorate (c : Client) : M (State Client Fastify) unit :=
  fun w =>
    let (r, f') := decorate "supabase" c (fastify (store w)) in
    (r, {| store := {| supabaseInstance := supabaseInstance (store w); fastify := f' |};
           now_iso := now_iso w; trace := trace w |}).

(** [supabasePlugin(fastify, options)]; the lines of [fastify.log] are
    recorded like those of the request logger. *)
Definition supabasePlugin (config : Config) : M (State Client Fastify) unit :=
  try_catch
    (supabase <- getSupabaseClient config ;;
     call_decorate supabase ;;;
     emit (EvRequestLog "info" "🔌 Registered Supabase client plugin and decorator." None))
    (fun err =>
       emit (EvRequestLog "error" "❌ Failed to initialize or decorate Supabase client"
               (Some err)) ;;;
       throw (PlainError "Supabase plugin initialization failed.")).

End WithLibraries.

End SupabaseSingleton.

(* ===================================================================== *)
(** ** Graceful shutdown (src/server.ts)                                  *)
(* ===================================================================== *)

Module Shutdown.

(** The [shutdown] closure of [setupGracefulShutdown]: the store is the
    flag [shuttingDown]; [close] is what [app.close()] resolves to.  The
    result is the code passed to [process.exit], or nothing when the
    function returns without exiting. *)
Definition shutdown (close : Outcome unit) (signal : string) : M bool (option Z) :=
  fun w =>
    if store w then (Returned None, w)
    else
      (emit (EvRequestLog "warn"
               ("Received " ++ signal ++ ", starting graceful shutdown...") None) ;;;
       try_catch
         ((fun w' => (close, w')) ;;;
          emit (EvRequestLog "info" "✅ Server closed gracefully." None) ;;;
          ret (Some 0))
         (fun err =>
            emit (EvRequestLog "error" "❌ Error during graceful shutdown." (Some err)) ;;;
            ret (Some 1)))
        {| store := true; now_iso := now_iso w; trace := trace w |}.

End Shutdown.

(* ===================================================================== *)
(** ** The module generator (scripts/generate-module.mjs)                 *)
(* ===================================================================== *)

(** The script works on module names, which it restricts to ASCII letters,
    digits, hyphens and underscores; strings are modelled as ASCII text and
    the case mappings are the ASCII ones. *)
Module Generator.

Definition in_range (lo hi : nat) (c : ascii) : bool :=
  Nat.leb lo (nat_of_ascii c) && Nat.leb (nat_of_ascii c) hi.

Definition is_lower (c : ascii) : bool := in_range 97 122 c.
Definition is_upper (c : ascii) : bool := in_range 65 90 c.
Definition is_digit (c : ascii) : bool := in_range 48 57 c.

Definition toLowerChar (c : ascii) : ascii :=
  if is_upper c then ascii_of_nat (nat_of_ascii c + 32) else c.

Definition toUpperChar (c : ascii) : ascii :=
  if is_lower c then ascii_of_nat (nat_of_ascii c - 32) else c.

(** [str.toLowerCase()]. *)
Fixpoint toLowerCase (s : string) : string :=
  match s with
  | EmptyString => EmptyString
  | String c rest => String (toLowerChar c) (toLowerCase rest)
  end.

(** [capitalize(str)]. *)
Definition capitalize (str : string) : string :=
  match str with
  | EmptyString => str
  | String c rest => String (toUpperChar c) rest
  end.

(** The characters [/[-_\s]/] matches. *)
Definition is_whitespace (c : ascii) : bool :=
  in_range 9 13 c || Nat.eqb (nat_of_ascii c) 32.

Definition is_separator (c : ascii) : bool :=
  Ascii.eqb c "-" || Ascii.eqb c "_" || is_whitespace c.

(** [str.split(sep)] for a separator that matches single characters. *)
Fixpoint split (sep : ascii -> bool) (s : string) : list string :=
  match s with
  | EmptyString => [EmptyString]
  | String c rest =>
      if sep c then EmptyString :: split sep rest
      else match split sep rest with
           | [] => [String c EmptyString]
           | part :: parts => String c part :: parts
           end
  end.

(** [parts.join('')]. *)
Definition join (parts : list string) : string :=
  fold_right String.append EmptyString parts.

(** [camelCase(str)]. *)
Definition camelCase (str : string) : string :=
  match str with
  | EmptyString => str
  | _ =>
      let parts := split is_separator str in
      (toLowerCase (hd EmptyString parts) ++ join (map capitalize (tl parts)))%string
  end.

Fixpoint last_char (s : string) : option ascii :=
  match s with
  | EmptyString => None
  | String c rest =>
      match rest with
      | EmptyString => Some c
      | String _ _ => last_char rest
      end
  end.

(** [str.endsWith(c)] for a one-character [c]. *)
Definition endsWith (s : string) (c : ascii) : bool :=
  match last_char s with
  | Some c' => Ascii.eqb c' c
  | None => false
  end.

(** [str.slice(0, -1)]. *)
Fixpoint drop_last (s : string) : string :=
  match s with
  | EmptyString => EmptyString
  | String c rest =>
      match rest with
      | EmptyString => EmptyString
      | String _ _ => String c (drop_last rest)
      end
  end.

Definition is_vowel (c : ascii) : bool :=
  Ascii.eqb c "a" || Ascii.eqb c "e" || Ascii.eqb c "i"
  || Ascii.eqb c "o" || Ascii.eqb c "u".

(** [['a','e','i','o','u'].includes(str.charAt(str.length - 2).toLowerCase())];
    [charAt] of a one-character string at -1 is the empty string. *)
Definition vowel_before_last (s : string) : bool :=
  match last_char (drop_last s) with
  | Some c => is_vowel (toLowerChar c)
  | None => false
  end.

(** [pluralize(str)]. *)
Definition pluralize (str : string) : string :=
  match str with
  | EmptyString => str
  | _ =>
      if endsWith str "s" then str
      else if endsWith str "y" && negb (vowel_before_last str)
      then (drop_last str ++ "ies")%string
      else (str ++ "s")%string
  end.

(** The test [/^[a-zA-Z0-9-_]+$/] together with the emptiness check. *)
Definition valid_char (c : ascii) : bool :=
  is_lower c || is_upper c || is_digit c || Ascii.eqb c "-" || Ascii.eqb c "_".

Fixpoint all_chars (p : ascii -> bool) (s : string) : bool :=
  match s with
  | EmptyString => true
  | String c rest => p c && all_chars p rest
  end.

(** Character classes of the derived names. *)
Definition is_alnum (c : ascii) : bool := is_lower c || is_upper c || is_digit c.

Definition lower_name_char (c : ascii) : bool :=
  is_lower c || is_digit c || Ascii.eqb c "-" || Ascii.eqb c "_".

Definition not_separator (c : ascii) : bool := negb (is_separator c).

Definition path_safe_char (c : ascii) : bool :=
  negb (Ascii.eqb c "/") && negb (Ascii.eqb c ".") && negb (Ascii.eqb c "\").

Definition valid_module_name (raw : string) : bool :=
  negb (String.eqb raw "") && all_chars valid_char raw.

(** Why the script stops with exit code 1 before generating anything. *)
Inductive ArgError : Type :=
| MissingName
| InvalidName (raw : string).

(** Step 1, the arguments: the first [--name=...] argument, the text
    between its first and second [=], validated. *)
Definition parseModuleName (args : list string) : ArgError + string :=
  match find (fun arg => String.prefix "--name=" arg) args with
  | None => inl MissingName
  | Some nameArg =>
      let moduleNameRaw := nth 1 (split (Ascii.eqb "=") nameArg) EmptyString in
      if valid_module_name moduleNameRaw then inr moduleNameRaw
      else inl (InvalidName moduleNameRaw)
  end.

(** Step 2, the derived names. *)
Record Names : Type := mkNames {
  moduleNameLower : string;
  moduleNameSingularLower : string;
  moduleNamePascal : string;
  moduleNameCamel : string;
  moduleNamePluralLower : string
}.

Definition deriveNames (moduleNameRaw : string) : Names :=
  let lower := toLowerCase moduleNameRaw in
  let singular := if endsWith lower "s" then drop_last lower else lower in
  {| moduleNameLower := lower;
     moduleNameSingularLower := singular;
     moduleNamePascal := capitalize (camelCase singular);
     moduleNameCamel := camelCase singular;
     moduleNamePluralLower := pluralize singular |}.

Section WithFileSystem.

(** The file system and the [fs] and [path] calls of the script. *)
Variable FS : Type.
Variable existsSync : string -> FS -> bool.
Variable mkdirSync : string -> FS -> Outcome unit * FS.
Variable writeFileSync : string -> string -> FS -> Outcome unit * FS.
Variable path_join : string -> string -> string.
Variable path_relative : string -> string.

Definition fs_call (op : FS -> Outcome unit * FS) : M FS unit :=
  fun w =>
    let (r, fs') := op (store w) in
    (r, {| store := fs'; now_iso := now_iso w; trace := trace w |}).

(** [createDirAndFile(dirPath, fileName, content)]. *)
Definition createDirAndFile (dirPath fileName content : string) : M FS unit :=
  let fullPath := path_join dirPath fileName in
  fun w =>
    if existsSync fullPath (store w)
    then emit (EvConsole "warn"
                 ("⚠️  File already exists: " ++ fullPath ++ " (Skipping)")) w
    else
      try_catch
        (fs_call (mkdirSync dirPath) ;;;
         fs_call (writeFileSync fullPath content) ;;;
         emit (EvConsole "log" ("✅ Created: " ++ path_relative fullPath)))
        (fun err =>
           emit (EvConsole "error" ("❌ Error creating file " ++ fullPath ++ ":")))
        w.

End WithFileSystem.

End Generator.

(* ===================================================================== *)
(** ** Properties of the service                                          *)
(* ===================================================================== *)

Lemma invalid_id_spec (id : JsValue) :
  UserService.invalid_id id = negb (nonempty_string id).
Proof.
  destruct id as [ | | b | n | | s | d | props ]; try reflexivity.
  - destruct b; reflexivity.
  - unfold UserService.invalid_id, Js.truthy.
    destruct (n =? 0); reflexivity.
  - destruct s; reflexivity.
Qed.

Lemma nonempty_string_JStr (s : string) :
  s <> "" -> nonempty_string (JStr s) = true.
Proof.
  intros Hs. simpl. destruct s; [ congruence | reflexivity ].
Qed.

Section ServiceFacts.

Variable Store : Type.
Variable repo : IUserRepository.t Store.

(** Past the guard the service hands the lookup of the repository back
    unchanged. *)
Lemma getUserById_delegates (s : string) (w : World Store) :
  s <> "" ->
  UserService.getUserById repo (JStr s) w = IUserRepository.findById repo s w.
Proof.
  intros Hs. unfold UserService.getUserById.
  rewrite invalid_id_spec, (nonempty_string_JStr Hs). simpl.
  unfold bind. destruct (IUserRepository.findById repo s w) as [[[u|]|e] w'];
    reflexivity.
Qed.

(** When the pre-check finds a user the service stops there, whatever
    [create] is. *)
Lemma createUser_stops_at_precheck (userData : CreateUserDTO.t) (w w' : World Store)
      (existing : User.t) :
  IUserRepository.findByEmail repo (CreateUserDTO.email userData)
    (snd (emit (EvConsole "log" "userData: ") w)) = (Returned (Some existing), w') ->
  UserService.createUser repo userData w
  = (Thrown (ApplicationError "User with this email already exists." (Some 409)), w').
Proof.
  intros H. unfold UserService.createUser, bind. simpl in *. rewrite H. reflexivity.
Qed.

End ServiceFacts.



(* ===================================================================== *)
(** ** Properties of the repository                                       *)
(* ===================================================================== *)

Section RepositoryFacts.

Variable Store : Type.
Variable client : SupabaseClient Store.

(** A lookup sends one query and then follows the response: no row and no
    error is absence, an error is a [DatabaseError], a rejected call
    propagates. *)
Lemma lookup_run (column value context : string) (w : World Store) :
  (r <- SupabaseUserRepository.query_maybeSingle client column value ;;
   SupabaseUserRepository.handleError (error r) context ;;;
   ret (SupabaseUserRepository.mapToDomain (data r))) w
  = match select_eq_maybeSingle client "users" column value (store w) with
    | Returned r =>
        match error r with
        | None => (Returned (SupabaseUserRepository.mapToDomain (data r)),
                   with_events w [EvSelect "users" column value])
        | Some e =>
            (Thrown (DatabaseError ("Database operation failed: " ++ context) (Some e)),
             with_events w
               [EvSelect "users" column value;
                EvConsole "error"
                  ("Supabase error during " ++ context ++ ": " ++ pg_message e
                   ++ " (Code: " ++ pg_code e ++ ")")])
        end
    | Thrown e => (Thrown e, with_events w [EvSelect "users" column value])
    end.
Proof.
  unfold SupabaseUserRepository.query_maybeSingle, bind, emit. simpl.
  unfold SupabaseUserRepository.tableName.
  destruct (select_eq_maybeSingle client "users" column value (store w))
    as [[d [e|]]|e]; simpl; try reflexivity.
  unfold with_events. simpl. rewrite <- app_assoc. reflexivity.
Qed.

Lemma findById_run (id : string) (w : World Store) :
  SupabaseUserRepository.findById client id w
  = match select_eq_maybeSingle client "users" "id" id (store w) with
    | Returned r =>
        match error r with
        | None => (Returned (SupabaseUserRepository.mapToDomain (data r)),
                   with_events w [EvSelect "users" "id" id])
        | Some e =>
            (Thrown (DatabaseError ("Database operation failed: findById " ++ id) (Some e)),
             with_events w
               [EvSelect "users" "id" id;
                EvConsole "error"
                  ("Supabase error during findById " ++ id ++ ": " ++ pg_message e
                   ++ " (Code: " ++ pg_code e ++ ")")])
        end
    | Thrown e => (Thrown e, with_events w [EvSelect "users" "id" id])
    end.
Proof.
  unfold SupabaseUserRepository.findById.
  rewrite (lookup_run "id" id ("findById " ++ id) w).
  destruct (select_eq_maybeSingle client "users" "id" id (store w))
    as [[d [e|]]|e]; reflexivity.
Qed.

Lemma findByEmail_run (email : string) (w : World Store) :
  SupabaseUserRepository.findByEmail client email w
  = match select_eq_maybeSingle client "users" "email" email (store w) with
    | Returned r =>
        match error r with
        | None => (Returned (SupabaseUserRepository.mapToDomain (data r)),
                   with_events w [EvSelect "users" "email" email])
        | Some e =>
            (Thrown (DatabaseError ("Database operation failed: findByEmail " ++ email)
                       (Some e)),
             with_events w
               [EvSelect "users" "email" email;
                EvConsole "error"
                  ("Supabase error during findByEmail " ++ email ++ ": " ++ pg_message e
                   ++ " (Code: " ++ pg_code e ++ ")")])
        end
    | Thrown e => (Thrown e, with_events w [EvSelect "users" "email" email])
    end.
Proof.
  unfold SupabaseUserRepository.findByEmail.
  rewrite (lookup_run "email" email ("findByEmail " ++ email) w).
  destruct (select_eq_maybeSingle client "users" "email" email (store w))
    as [[d [e|]]|e]; reflexivity.
Qed.

End RepositoryFacts.

(* ===================================================================== *)
(** ** Reads                                                              *)
(* ===================================================================== *)

(** C10. A non-empty string id, UUID or not, passes the guard of
    [UserService.getUserById]: the service hands back the lookup of the
    repository unchanged.  The GET route registers no parameter schema, so
    the request goes straight to the handler and the first thing recorded
    is the lookup of that id. *)
Theorem getUserById_accepts_any_nonempty_string :
  forall (Store : Type) (client : SupabaseClient Store) (s : string)
         (w : World Store),
    s <> "" ->
    UserService.invalid_id (JStr s) = false
    /\ (forall repo : IUserRepository.t Store,
          UserService.getUserById repo (JStr s) w
          = IUserRepository.findById repo s w)
    /\ UserRoutes.get_user_params = None
    /\ UserRoutes.get_user client s w
       = UserHandler.getUserById (UserRoutes.userRepository client) s w
    /\ exists rest,
         trace (snd (UserRoutes.get_user client s w))
         = (trace w ++ EvSelect "users" "id" s :: rest)%list.
Proof.
  intros Store client s w Hs.
  split; [ rewrite invalid_id_spec, (nonempty_string_JStr Hs); reflexivity | ].
  split; [ intros repo; apply getUserById_delegates; exact Hs | ].
  split; [ reflexivity | ].
  split; [ reflexivity | ].
  unfold UserRoutes.get_user, UserRoutes.get_user_params,
    UserHandler.getUserById, try_catch, bind.
  rewrite (getUserById_delegates (UserRoutes.userRepository client) w Hs).
  unfold UserRoutes.userRepository, SupabaseUserRepository.repository. simpl.
  rewrite findById_run.
  destruct (select_eq_maybeSingle client "users" "id" s (store w))
    as [[d [e|]]|e]; simpl.
  - eexists. rewrite <- app_assoc. simpl. reflexivity.
  - destruct (SupabaseUserRepository.mapToDomain d); simpl.
    + eexists. rewrite <- app_assoc. simpl. reflexivity.
    + eexists. reflexivity.
  - eexists. rewrite <- app_assoc. simpl. reflexivity.
Qed.

Lemma getUserById_accepts_any_nonempty_string_witness :
  "not-a-uuid" <> ""
  /\ UserService.invalid_id (JStr "not-a-uuid") = false
  /\ statusCode_of_run
       (UserRoutes.get_user MemStore.client "not-a-uuid"
          (MemStore.world_of MemStore.one_user)) = Some 404.
Proof.
  split; [ discriminate | ].
  split.
  - apply (getUserById_accepts_any_nonempty_string MemStore.client
             (s := "not-a-uuid") (MemStore.world_of MemStore.one_user)).
    discriminate.
  - reflexivity.
Defined.

(** C7. For every well-formed id (a non-empty string) for which the store
    holds no row (the lookup resolves to no data and no error),
    [UserService.getUserById] returns null rather than throwing, and the
    handler turns that absence into a 404 whose message names the id. *)
Theorem getUserById_absent_is_404 :
  forall (Store : Type) (client : SupabaseClient Store) (s : string)
         (w : World Store),
    s <> "" ->
    select_eq_maybeSingle client "users" "id" s (store w)
    = Returned {| data := JNull; error := None |} ->
    UserService.getUserById (UserRoutes.userRepository client) (JStr s) w
    = (Returned None, with_events w [EvSelect "users" "id" s])
    /\ UserHandler.getUserById (UserRoutes.userRepository client) s w
       = (Returned (Sensible.notFound ("User with ID " ++ s ++ " not found.")),
          with_events w [EvSelect "users" "id" s])
    /\ statusCode (Sensible.notFound ("User with ID " ++ s ++ " not found.")) = 404
    /\ reply_message (Sensible.notFound ("User with ID " ++ s ++ " not found."))
       = JStr ("User with ID " ++ s ++ " not found.").
Proof.
  intros Store client s w Hs Habsent.
  assert (E : UserService.getUserById (UserRoutes.userRepository client) (JStr s) w
              = (Returned None, with_events w [EvSelect "users" "id" s])).
  { rewrite (getUserById_delegates _ w Hs).
    unfold UserRoutes.userRepository, SupabaseUserRepository.repository. simpl.
    rewrite findById_run, Habsent. reflexivity. }
  split; [ exact E | ].
  split; [ | split; reflexivity ].
  unfold UserHandler.getUserById, try_catch, bind. rewrite E. reflexivity.
Qed.

Lemma getUserById_absent_is_404_witness :
  UserHandler.getUserById (UserRoutes.userRepository MemStore.client)
    "00000000-0000-0000-0000-000000000000" (MemStore.world_of MemStore.one_user)
  = (Returned (Sensible.notFound
                 "User with ID 00000000-0000-0000-0000-000000000000 not found."),
     with_events (MemStore.world_of MemStore.one_user)
       [EvSelect "users" "id" "00000000-0000-0000-0000-000000000000"]).
Proof.
  apply (getUserById_absent_is_404 MemStore.client
           (s := "00000000-0000-0000-0000-000000000000")
           (MemStore.world_of MemStore.one_user)).
  - discriminate.
  - reflexivity.
Defined.

(* ===================================================================== *)
(** ** Creation                                                           *)
(* ===================================================================== *)

(** C2. When the store already holds a row with the email of the creation
    input (the pre-check lookup resolves to that row), [UserService.createUser]
    throws an error named ApplicationError with code 409 and the message
    that the user already exists; the store is left as it was and the only
    query sent is the lookup by email: no insert. *)
Theorem createUser_existing_email_is_409 :
  forall (Store : Type) (client : SupabaseClient Store)
         (userData : CreateUserDTO.t) (row : JsValue) (w : World Store),
    select_eq_maybeSingle client "users" "email" (CreateUserDTO.email userData)
      (store w)
    = Returned {| data := row; error := None |} ->
    Js.truthy row = true ->
    let run := UserService.createUser (UserRoutes.userRepository client) userData w in
    fst run = Thrown (ApplicationError "User with this email already exists." (Some 409))
    /\ (exists err,
          fst run = Thrown err
          /\ Err.name err = "ApplicationError"
          /\ Err.code err = Some 409
          /\ Err.message err = "User with this email already exists.")
    /\ store (snd run) = store w
    /\ trace (snd run)
       = (trace w ++ [EvConsole "log" "userData: ";
                      EvSelect "users" "email" (CreateUserDTO.email userData)])%list
    /\ filter is_insert (trace (snd run)) = filter is_insert (trace w).
Proof.
  intros Store client userData row w Hrow Htruthy run.
  assert (E : run
              = (Thrown (ApplicationError "User with this email already exists." (Some 409)),
                 with_events w [EvConsole "log" "userData: ";
                                EvSelect "users" "email" (CreateUserDTO.email userData)])).
  { subst run.
    destruct (SupabaseUserRepository.mapToDomain row) as [existing|] eqn:Hmap.
    - apply createUser_stops_at_precheck with (existing := existing).
      unfold UserRoutes.userRepository, SupabaseUserRepository.repository. simpl.
      rewrite findByEmail_run. simpl. rewrite Hrow. simpl. rewrite Hmap.
      unfold with_events. simpl. rewrite <- app_assoc. reflexivity.
    - unfold SupabaseUserRepository.mapToDomain in Hmap.
      rewrite Htruthy in Hmap. discriminate. }
  rewrite E. simpl.
  split; [ reflexivity | ].
  split; [ eexists; repeat split | ].
  repeat split.
  rewrite filter_app. simpl. apply app_nil_r.
Qed.

Lemma createUser_existing_email_is_409_witness :
  exists err,
    fst (UserService.createUser (UserRoutes.userRepository MemStore.client)
           MemStore.alice_again (MemStore.world_of MemStore.one_user))
    = Thrown err
    /\ Err.name err = "ApplicationError"
    /\ Err.code err = Some 409
    /\ Err.message err = "User with this email already exists.".
Proof.
  destruct (createUser_existing_email_is_409 MemStore.client MemStore.alice_again
              (row := MemStore.alice_row) (MemStore.world_of MemStore.one_user)
              eq_refl eq_refl) as [_ [Herr _]].
  exact Herr.
Defined.

Section CreateFacts.

Variable Store : Type.
Variable client : SupabaseClient Store.

(** What [create] does once the insert has resolved to a response. *)
Lemma create_run (userData : CreateUserDTO.t) (w : World Store)
      (r : PostgrestResponse) (s' : Store) :
  insert_select_single client "users" (SupabaseUserRepository.dbData_of userData)
    (store w) = (Returned r, s') ->
  fst (SupabaseUserRepository.create client userData w)
  = match error r with
    | Some e =>
        if String.eqb (pg_code e) "23505"
        then Thrown (DatabaseError SupabaseUserRepository.unique_violation_message (Some e))
        else Thrown (DatabaseError
                       ("Database operation failed: create user with email "
                        ++ CreateUserDTO.email userData) (Some e))
    | None =>
        match SupabaseUserRepository.mapToDomain (data r) with
        | Some u => Returned u
        | None => Thrown (DatabaseError
                            "User creation failed: No data returned from database" None)
        end
    end
  /\ store (snd (SupabaseUserRepository.create client userData w)) = s'.
Proof.
  intros H.
  unfold SupabaseUserRepository.create, SupabaseUserRepository.query_insert,
    SupabaseUserRepository.tableName, bind, emit. simpl.
  rewrite H. destruct r as [d [e|]]; simpl.
  - destruct (String.eqb (pg_code e) "23505"); simpl; split; reflexivity.
  - unfold SupabaseUserRepository.mapToDomain.
    destruct (Js.truthy d); simpl; split; reflexivity.
Qed.

End CreateFacts.

(** C4. Once the insert has resolved, [SupabaseUserRepository.create]
    throws the unique-violation [DatabaseError] exactly when the response
    carries an error with code '23505'; any other error of the store, and a
    response with neither error nor row, give a [DatabaseError] of the
    unknown kind; a response with a row and no error returns the entity
    mapped from that row: its id, email, username and password are those of
    the row and its timestamps are the Dates made of the row's. *)
Theorem create_error_kinds :
  forall (Store : Type) (client : SupabaseClient Store)
         (userData : CreateUserDTO.t) (w : World Store)
         (r : PostgrestResponse) (s' : Store),
    insert_select_single client "users" (SupabaseUserRepository.dbData_of userData)
      (store w) = (Returned r, s') ->
    let run := SupabaseUserRepository.create client userData w in
    (forall e, error r = Some e -> pg_code e = "23505" ->
       fst run = Thrown (DatabaseError
                           "Unique constraint violation (e.g., email already exists)"
                           (Some e)))
    /\ (forall e, error r = Some e -> pg_code e <> "23505" ->
          fst run = Thrown (DatabaseError
                              ("Database operation failed: create user with email "
                               ++ CreateUserDTO.email userData) (Some e)))
    /\ (error r = None -> Js.truthy (data r) = false ->
          fst run = Thrown (DatabaseError
                              "User creation failed: No data returned from database"
                              None))
    /\ (error r = None -> Js.truthy (data r) = true ->
          exists u, SupabaseUserRepository.mapToDomain (data r) = Some u
                    /\ fst run = Returned u
                    /\ User.id u = Js.get (data r) "id"
                    /\ User.email u = Js.get (data r) "email"
                    /\ User.username u = Js.get (data r) "username"
                    /\ User.password u = Js.get (data r) "password"
                    /\ User.created_at u = Js.newDate (Js.get (data r) "created_at")
                    /\ User.updated_at u = Js.newDate (Js.get (data r) "updated_at"))
    /\ (forall err, fst run = Thrown err ->
          Err.name err = "DatabaseError"
          /\ (storage_kind err = Some UniqueViolation
           <-> exists e, error r = Some e /\ pg_code e = "23505")
          /\ (storage_kind err = Some UnknownKind
              <-> ~ exists e, error r = Some e /\ pg_code e = "23505")).
Proof.
  intros Store client userData w r s' Hins run.
  destruct (create_run client userData w Hins) as [Hrun _].
  fold run in Hrun.
  repeat split.
  - intros e He Hcode. rewrite Hrun, He.
    apply String.eqb_eq in Hcode. rewrite Hcode. reflexivity.
  - intros e He Hcode. rewrite Hrun, He.
    apply String.eqb_neq in Hcode. rewrite Hcode. reflexivity.
  - intros He Hd. rewrite Hrun, He.
    unfold SupabaseUserRepository.mapToDomain. rewrite Hd. reflexivity.
  - intros He Hd. rewrite Hrun, He.
    unfold SupabaseUserRepository.mapToDomain. rewrite Hd. simpl.
    eexists. repeat split.
  - rewrite Hrun in H. destruct (error r) as [e|].
    + destruct (String.eqb (pg_code e) "23505"); inversion H; reflexivity.
    + destruct (SupabaseUserRepository.mapToDomain (data r)); [ discriminate | ].
      inversion H; reflexivity.
  - rewrite Hrun in H. destruct (error r) as [e|] eqn:He.
    + destruct (String.eqb (pg_code e) "23505") eqn:Hc.
      * intros _. exists e. split; [ reflexivity | apply String.eqb_eq; exact Hc ].
      * inversion H; subst err. simpl. discriminate.
    + destruct (SupabaseUserRepository.mapToDomain (data r)); [ discriminate | ].
      inversion H; subst err. simpl. discriminate.
  - rewrite Hrun in H. intros [e [He Hc]]. rewrite He in H.
    apply String.eqb_eq in Hc. rewrite Hc in H. inversion H. reflexivity.
  - rewrite Hrun in H. intros Hk [e [He Hc]]. rewrite He in H.
    apply String.eqb_eq in Hc. rewrite Hc in H. inversion H; subst err.
    simpl in Hk. discriminate.
  - rewrite Hrun in H. intros Hno. destruct (error r) as [e|] eqn:He.
    + destruct (String.eqb (pg_code e) "23505") eqn:Hc.
      * exfalso. apply Hno. exists e. split; [ reflexivity | apply String.eqb_eq; exact Hc ].
      * inversion H; subst err. reflexivity.
    + destruct (SupabaseUserRepository.mapToDomain (data r)); [ discriminate | ].
      inversion H; subst err. reflexivity.
Qed.

Lemma create_error_kinds_witness :
  fst (SupabaseUserRepository.create MemStore.client MemStore.alice_again
         (MemStore.world_of MemStore.one_user))
  = Thrown (DatabaseError "Unique constraint violation (e.g., email already exists)"
              (Some {| pg_message := "duplicate key value violates unique constraint";
                       pg_code := "23505" |}))
  /\ (exists u,
        fst (SupabaseUserRepository.create MemStore.client MemStore.bob
               (MemStore.world_of MemStore.one_user)) = Returned u
        /\ User.id u = JStr "7d3f1c1e-0000-4000-8000-000000000002"
        /\ User.email u = JStr "bob@example.com"
        /\ User.created_at u = DateParse "2024-06-01T08:30:00.000Z").
Proof.
  split.
  - destruct (create_error_kinds MemStore.client MemStore.alice_again
                (MemStore.world_of MemStore.one_user)
                (r := {| data := JNull;
                         error := Some {| pg_message := "duplicate key value violates unique constraint";
                                          pg_code := "23505" |} |})
                (s' := MemStore.one_user) eq_refl) as [Hunique _].
    apply Hunique; reflexivity.
  - destruct (create_error_kinds MemStore.client MemStore.bob
                (MemStore.world_of MemStore.one_user) eq_refl)
      as [_ [_ [_ [Hrow _]]]].
    destruct (Hrow eq_refl eq_refl)
      as [u [_ [Hrun [Hid [Hemail [_ [_ [Hcreated _]]]]]]]].
    exists u. repeat split; assumption.
Defined.

(* ===================================================================== *)
(** ** Properties of the handlers                                         *)
(* ===================================================================== *)

Section HandlerFacts.

Variable Store : Type.
Variable repo : IUserRepository.t Store.

(** An error thrown by the service is logged and answered by the [catch]
    block. *)
Lemma createUser_handler_on_throw (body : CreateUserDTO.t) (w w' : World Store)
      (e : JsError) :
  UserService.createUser repo body w = (Thrown e, w') ->
  UserHandler.createUser repo body w
  = (Returned (UserHandler.createUser_catch e),
     with_events w' [EvRequestLog "error" "Error creating user" (Some e)]).
Proof.
  intros H. unfold UserHandler.createUser, try_catch, bind. rewrite H. reflexivity.
Qed.

Lemma getUserById_handler_on_throw (userId : string) (w w' : World Store)
      (e : JsError) :
  UserService.getUserById repo (JStr userId) w = (Thrown e, w') ->
  UserHandler.getUserById repo userId w
  = (Returned (UserHandler.getUserById_catch e),
     with_events w' [EvRequestLog "error" "Error fetching user by ID" (Some e)]).
Proof.
  intros H. unfold UserHandler.getUserById, try_catch, bind. rewrite H. reflexivity.
Qed.

Lemma createUser_handler_on_return (body : CreateUserDTO.t) (w w' : World Store)
      (user : User.t) :
  UserService.createUser repo body w = (Returned user, w') ->
  UserHandler.createUser repo body w
  = (Returned {| statusCode := 201;
                 payload := UserHandler.mapUserToResponse user |}, w').
Proof.
  intros H. unfold UserHandler.createUser, try_catch, bind. rewrite H. reflexivity.
Qed.

Lemma getUserById_handler_on_return (userId : string) (w w' : World Store)
      (user : User.t) :
  UserService.getUserById repo (JStr userId) w = (Returned (Some user), w') ->
  UserHandler.getUserById repo userId w
  = (Returned {| statusCode := 200;
                 payload := UserHandler.mapUserToResponse user |},
     with_events w' [EvRequestLog "debug" "DATA: " None]).
Proof.
  intros H. unfold UserHandler.getUserById, try_catch, bind. rewrite H. reflexivity.
Qed.

End HandlerFacts.

(** The two [catch] blocks answer a [DatabaseError] with their fixed
    database message. *)
Lemma catch_DatabaseError (e : JsError) :
  Err.name e = "DatabaseError" ->
  UserHandler.createUser_catch e
  = Sensible.internalServerError "A database error occurred while creating the user."
  /\ UserHandler.getUserById_catch e
     = Sensible.internalServerError "A database error occurred while fetching the user.".
Proof.
  intros Hn. unfold UserHandler.createUser_catch, UserHandler.getUserById_catch.
  rewrite Hn. split; reflexivity.
Qed.

Lemma createUser_catch_cases (e : JsError) :
  (Err.name e = "ApplicationError" -> Err.code e = Some 409 ->
     UserHandler.createUser_catch e = Sensible.conflict (Err.message e))
  /\ (Err.name e = "ApplicationError" -> Err.code e = Some 400 ->
        UserHandler.createUser_catch e = Sensible.badRequest (Err.message e))
  /\ (~ (Err.name e = "ApplicationError"
          /\ (Err.code e = Some 400 \/ Err.code e = Some 409)) ->
        statusCode (UserHandler.createUser_catch e) = 500
        /\ generic_create_message (reply_message (UserHandler.createUser_catch e))).
Proof.
  unfold UserHandler.createUser_catch, UserHandler.code_is.
  split; [ | split ].
  - intros Hn Hc. rewrite Hn, Hc. reflexivity.
  - intros Hn Hc. rewrite Hn, Hc. reflexivity.
  - intros Hnot.
    assert (Hfall : forall r,
               r = (if String.eqb (Err.name e) "DatabaseError"
                    then Sensible.internalServerError
                           "A database error occurred while creating the user."
                    else Sensible.internalServerError
                           "An unexpected error occurred while creating the user.") ->
               statusCode r = 500 /\ generic_create_message (reply_message r)).
    { intros r ->. destruct (String.eqb (Err.name e) "DatabaseError");
        (split; [ reflexivity | ]); [ left | right ]; reflexivity. }
    destruct (String.eqb (Err.name e) "ApplicationError") eqn:Hn;
      [ | apply Hfall; reflexivity ].
    apply String.eqb_eq in Hn.
    destruct (Err.code e) as [c|]; [ | apply Hfall; reflexivity ].
    destruct (c =? 409) eqn:H409.
    { exfalso. apply Hnot. apply Z.eqb_eq in H409. subst c. auto. }
    destruct (c =? 400) eqn:H400.
    { exfalso. apply Hnot. apply Z.eqb_eq in H400. subst c. auto. }
    apply Hfall; reflexivity.
Qed.

Lemma getUserById_catch_cases (e : JsError) :
  (Err.name e = "ApplicationError" -> Err.code e = Some 400 ->
     UserHandler.getUserById_catch e = Sensible.badRequest (Err.message e))
  /\ (~ (Err.name e = "ApplicationError" /\ Err.code e = Some 400) ->
        statusCode (UserHandler.getUserById_catch e) = 500
        /\ generic_fetch_message (reply_message (UserHandler.getUserById_catch e))).
Proof.
  unfold UserHandler.getUserById_catch, UserHandler.code_is.
  split.
  - intros Hn Hc. rewrite Hn, Hc. reflexivity.
  - intros Hnot.
    destruct (String.eqb (Err.name e) "ApplicationError") eqn:Hn; simpl.
    + apply String.eqb_eq in Hn.
      destruct (Err.code e) as [c|].
      * destruct (c =? 400) eqn:H400.
        { exfalso. apply Hnot. apply Z.eqb_eq in H400. subst c. auto. }
        rewrite Hn. simpl. split; [ reflexivity | right; reflexivity ].
      * rewrite Hn. simpl. split; [ reflexivity | right; reflexivity ].
    + destruct (String.eqb (Err.name e) "DatabaseError");
        (split; [ reflexivity | ]); [ left | right ]; reflexivity.
Qed.

(** C5, as the code has it.  Whatever error the service throws to a
    handler is logged and answered as follows.  [createUser]: an
    ApplicationError with code 409 or 400 is answered with that status and
    the error's own message; anything else with 500 and one of two fixed
    messages.  [getUserById]: only an ApplicationError with code 400 is
    answered with its status and message; anything else, an ApplicationError
    with code 409 included, with 500 and one of two fixed messages. *)
Theorem handler_error_mapping :
  forall (Store : Type) (repo : IUserRepository.t Store) (e : JsError),
    (forall body w w',
        UserService.createUser repo body w = (Thrown e, w') ->
        exists reply,
          fst (UserHandler.createUser repo body w) = Returned reply
          /\ (Err.name e = "ApplicationError" -> Err.code e = Some 409 ->
                statusCode reply = 409 /\ reply_message reply = JStr (Err.message e))
          /\ (Err.name e = "ApplicationError" -> Err.code e = Some 400 ->
                statusCode reply = 400 /\ reply_message reply = JStr (Err.message e))
          /\ (~ (Err.name e = "ApplicationError"
                  /\ (Err.code e = Some 400 \/ Err.code e = Some 409)) ->
                statusCode reply = 500 /\ generic_create_message (reply_message reply)))
    /\ (forall userId w w',
           UserService.getUserById repo (JStr userId) w = (Thrown e, w') ->
           exists reply,
             fst (UserHandler.getUserById repo userId w) = Returned reply
             /\ (Err.name e = "ApplicationError" -> Err.code e = Some 400 ->
                   statusCode reply = 400 /\ reply_message reply = JStr (Err.message e))
             /\ (~ (Err.name e = "ApplicationError" /\ Err.code e = Some 400) ->
                   statusCode reply = 500
                   /\ generic_fetch_message (reply_message reply))).
Proof.
  intros Store repo e. split.
  - intros body w w' H.
    exists (UserHandler.createUser_catch e).
    rewrite (createUser_handler_on_throw repo body w H).
    destruct (createUser_catch_cases e) as [H409 [H400 Hother]].
    split; [ reflexivity | ].
    split; [ intros Hn Hc; rewrite (H409 Hn Hc); split; reflexivity | ].
    split; [ intros Hn Hc; rewrite (H400 Hn Hc); split; reflexivity | exact Hother ].
  - intros userId w w' H.
    exists (UserHandler.getUserById_catch e).
    rewrite (getUserById_handler_on_throw repo userId w H).
    destruct (getUserById_catch_cases e) as [H400 Hother].
    split; [ reflexivity | ].
    split; [ intros Hn Hc; rewrite (H400 Hn Hc); split; reflexivity | exact Hother ].
Qed.

Lemma handler_error_mapping_witness :
  exists reply,
    fst (UserHandler.createUser (UserRoutes.userRepository MemStore.client)
           MemStore.alice_again (MemStore.world_of MemStore.one_user))
    = Returned reply
    /\ statusCode reply = 409
    /\ reply_message reply = JStr "User with this email already exists.".
Proof.
  destruct (handler_error_mapping (UserRoutes.userRepository MemStore.client)
              (ApplicationError "User with this email already exists." (Some 409)))
    as [Hcreate _].
  destruct (Hcreate MemStore.alice_again (MemStore.world_of MemStore.one_user)
              (with_events (MemStore.world_of MemStore.one_user)
                 [EvConsole "log" "userData: ";
                  EvSelect "users" "email" "alice@example.com"])
              eq_refl) as [reply [Hrun [H409 _]]].
  exists reply. split; [ exact Hrun | ].
  apply H409; reflexivity.
Defined.

(** C5 as stated fails for [getUserById]: an ApplicationError with code 409
    reaching that handler is answered with 500 and the fixed message, not
    with 409 and its own message. *)
Lemma getUserById_handler_answers_409_with_500 :
  let e := ApplicationError "User with this email already exists." (Some 409) in
  let w := {| store := tt; now_iso := "2024-06-01T08:30:00.000Z"; trace := [] |} in
  fst (UserService.getUserById (throwing_repository e) (JStr "u1") w) = Thrown e
  /\ fst (UserHandler.getUserById (throwing_repository e) "u1" w)
     = Returned (Sensible.internalServerError
                   "An unexpected error occurred while fetching the user.")
  /\ ~ (exists reply,
          fst (UserHandler.getUserById (throwing_repository e) "u1" w) = Returned reply
          /\ statusCode reply = 409
          /\ reply_message reply = JStr (Err.message e)).
Proof.
  simpl. split; [ reflexivity | ]. split; [ reflexivity | ].
  intros [reply [Hrun [Hstatus _]]].
  inversion Hrun; subst reply. discriminate Hstatus.
Qed.

(* ===================================================================== *)
(** ** Success responses                                                  *)
(* ===================================================================== *)

(** C6. The body a handler sends on success is [mapUserToResponse] of the
    entity: its properties are exactly id, email and created_at, it has no
    password property and does not depend on the password at all, although
    the entity mapped from a row carries the row's password.  Creation
    answers 201, a read answers 200. *)
Theorem success_response_strips_password :
  forall (Store : Type) (repo : IUserRepository.t Store),
    (forall user,
        Js.keys (UserHandler.mapUserToResponse user) = ["id"; "email"; "created_at"]
        /\ Js.has (UserHandler.mapUserToResponse user) "password" = false
        /\ Js.get (UserHandler.mapUserToResponse user) "id" = User.id user
        /\ Js.get (UserHandler.mapUserToResponse user) "email" = User.email user
        /\ Js.get (UserHandler.mapUserToResponse user) "created_at"
           = JDate (User.created_at user))
    /\ (forall u1 u2,
           User.id u1 = User.id u2 -> User.email u1 = User.email u2 ->
           User.created_at u1 = User.created_at u2 ->
           UserHandler.mapUserToResponse u1 = UserHandler.mapUserToResponse u2)
    /\ (forall row, Js.truthy row = true ->
           exists u, SupabaseUserRepository.mapToDomain row = Some u
                     /\ User.password u = Js.get row "password")
    /\ (forall body w w' user,
           UserService.createUser repo body w = (Returned user, w') ->
           fst (UserHandler.createUser repo body w)
           = Returned {| statusCode := 201;
                         payload := UserHandler.mapUserToResponse user |})
    /\ (forall userId w w' user,
           UserService.getUserById repo (JStr userId) w = (Returned (Some user), w') ->
           fst (UserHandler.getUserById repo userId w)
           = Returned {| statusCode := 200;
                         payload := UserHandler.mapUserToResponse user |}).
Proof.
  intros Store repo.
  split; [ intros user; repeat split | ].
  split.
  { intros u1 u2 Hid Hemail Hcreated. unfold UserHandler.mapUserToResponse.
    rewrite Hid, Hemail, Hcreated. reflexivity. }
  split.
  { intros row Hrow. unfold SupabaseUserRepository.mapToDomain. rewrite Hrow.
    simpl. eexists. split; reflexivity. }
  split.
  - intros body w w' user H.
    rewrite (createUser_handler_on_return repo body w H). reflexivity.
  - intros userId w w' user H.
    rewrite (getUserById_handler_on_return repo userId w H). reflexivity.
Qed.

Lemma success_response_strips_password_witness :
  fst (UserHandler.getUserById (UserRoutes.userRepository MemStore.client)
         "7d3f1c1e-0000-4000-8000-000000000001" (MemStore.world_of MemStore.one_user))
  = Returned {| statusCode := 200;
                payload := JObj [("id", JStr "7d3f1c1e-0000-4000-8000-000000000001");
                                 ("email", JStr "alice@example.com");
                                 ("created_at",
                                  JDate (DateParse "2024-05-01T10:00:00.000Z"))] |}
  /\ (exists u, SupabaseUserRepository.mapToDomain MemStore.alice_row = Some u
                /\ User.password u = JStr "correct horse").
Proof.
  destruct (success_response_strips_password (UserRoutes.userRepository MemStore.client))
    as [_ [_ [Hpassword [_ Hread]]]].
  split.
  - apply (Hread "7d3f1c1e-0000-4000-8000-000000000001"
             (MemStore.world_of MemStore.one_user)
             (with_events (MemStore.world_of MemStore.one_user)
                [EvSelect "users" "id" "7d3f1c1e-0000-4000-8000-000000000001"])
             {| User.id := JStr "7d3f1c1e-0000-4000-8000-000000000001";
                User.username := JStr "alice";
                User.email := JStr "alice@example.com";
                User.password := JStr "correct horse";
                User.created_at := DateParse "2024-05-01T10:00:00.000Z";
                User.updated_at := DateParse "2024-05-01T10:00:00.000Z" |}).
    reflexivity.
  - apply (Hpassword MemStore.alice_row). reflexivity.
Defined.

(* ===================================================================== *)
(** ** Storage errors at the service boundary                             *)
(* ===================================================================== *)

(** C1. A [DatabaseError] raised by the repository is either re-classified
    by the service or special-cased by the handler.  An error thrown by
    [create] inside [createUser] leaves the service as an error named
    ApplicationError with code 500 (the default code of the class) that
    carries nothing of the storage error.  A [DatabaseError] thrown by the
    lookups ([findByEmail] in [createUser], [findById] in [getUserById])
    leaves the service as it is, and there the handler special-cases the
    storage kind: it answers 500 with its fixed database message. *)
Theorem storage_error_reclassified_or_special_cased :
  forall (Store : Type) (repo : IUserRepository.t Store),
    (forall msg,
        Err.name (ApplicationError msg None) = "ApplicationError"
        /\ Err.code (ApplicationError msg None) = Some 500
        /\ Err.message (ApplicationError msg None) = msg)
    /\ (forall userData w w1 w2 e,
           IUserRepository.findByEmail repo (CreateUserDTO.email userData)
             (with_events w [EvConsole "log" "userData: "]) = (Returned None, w1) ->
           IUserRepository.create repo userData w1 = (Thrown e, w2) ->
           fst (UserService.createUser repo userData w)
           = Thrown (ApplicationError
                       "Failed to create user due to a database issue." (Some 500))
           /\ (exists err,
                 fst (UserService.createUser repo userData w) = Thrown err
                 /\ Err.name err = "ApplicationError"
                 /\ Err.code err = Some 500
                 /\ Err.message err = "Failed to create user due to a database issue."
                 /\ Err.originalError err = None)
           /\ exists reply,
               fst (UserHandler.createUser repo userData w) = Returned reply
               /\ statusCode reply = 500
               /\ reply_message reply
                  = JStr "An unexpected error occurred while creating the user.")
    /\ (forall userData w w1 e,
           Err.name e = "DatabaseError" ->
           IUserRepository.findByEmail repo (CreateUserDTO.email userData)
             (with_events w [EvConsole "log" "userData: "]) = (Thrown e, w1) ->
           fst (UserService.createUser repo userData w) = Thrown e
           /\ fst (UserHandler.createUser repo userData w)
              = Returned (Sensible.internalServerError
                            "A database error occurred while creating the user.")
           /\ exists reply,
               fst (UserHandler.createUser repo userData w) = Returned reply
               /\ statusCode reply = 500
               /\ reply_message reply
                  = JStr "A database error occurred while creating the user.")
    /\ (forall s w w1 e,
           s <> "" ->
           Err.name e = "DatabaseError" ->
           IUserRepository.findById repo s w = (Thrown e, w1) ->
           fst (UserService.getUserById repo (JStr s) w) = Thrown e
           /\ fst (UserHandler.getUserById repo s w)
              = Returned (Sensible.internalServerError
                            "A database error occurred while fetching the user.")
           /\ exists reply,
               fst (UserHandler.getUserById repo s w) = Returned reply
               /\ statusCode reply = 500
               /\ reply_message reply
                  = JStr "A database error occurred while fetching the user.").
Proof.
  intros Store repo.
  split; [ intros msg; repeat split | ].
  split; [ | split ].
  - intros userData w w1 w2 e Hfind Hcreate.
    assert (E : UserService.createUser repo userData w
                = (Thrown (ApplicationError
                             "Failed to create user due to a database issue." (Some 500)),
                   with_events w2
                     [EvConsole "error" "Database error during user creation:"])).
    { unfold UserService.createUser, try_catch, bind.
      unfold with_events in Hfind. simpl in *. rewrite Hfind, Hcreate. reflexivity. }
    split; [ rewrite E; reflexivity | ].
    split; [ rewrite E; eexists; repeat split | ].
    eexists. rewrite (createUser_handler_on_throw repo userData w E).
    repeat split.
  - intros userData w w1 e Hname Hfind.
    assert (E : UserService.createUser repo userData w = (Thrown e, w1)).
    { unfold UserService.createUser, bind.
      unfold with_events in Hfind. simpl in *. rewrite Hfind. reflexivity. }
    split; [ rewrite E; reflexivity | ].
    rewrite (createUser_handler_on_throw repo userData w E). simpl.
    rewrite (proj1 (catch_DatabaseError e Hname)).
    split; [ reflexivity | ]. eexists. repeat split.
  - intros s w w1 e Hs Hname Hfind.
    assert (E : UserService.getUserById repo (JStr s) w = (Thrown e, w1)).
    { rewrite (getUserById_delegates repo w Hs). exact Hfind. }
    split; [ rewrite E; reflexivity | ].
    rewrite (getUserById_handler_on_throw repo s w E). simpl.
    rewrite (proj2 (catch_DatabaseError e Hname)).
    split; [ reflexivity | ]. eexists. repeat split.
Qed.

Lemma storage_error_reclassified_or_special_cased_witness :
  (exists err,
      fst (UserService.createUser (UserRoutes.userRepository MemStore.client)
             MemStore.bob (MemStore.world_of MemStore.exhausted))
      = Thrown err
      /\ Err.name err = "ApplicationError"
      /\ Err.code err = Some 500
      /\ Err.message err = "Failed to create user due to a database issue."
      /\ Err.originalError err = None)
  /\ fst (UserHandler.getUserById (UserRoutes.userRepository MemStore.client)
            "7d3f1c1e-0000-4000-8000-000000000001"
            (MemStore.world_of MemStore.unreachable))
     = Returned (Sensible.internalServerError
                   "A database error occurred while fetching the user.").
Proof.
  destruct (storage_error_reclassified_or_special_cased
              (UserRoutes.userRepository MemStore.client))
    as [_ [Hcreate [_ Hread]]].
  split.
  - eapply Hcreate; reflexivity.
  - eapply Hread; [ discriminate | | reflexivity ]. reflexivity.
Defined.

(* ===================================================================== *)
(** ** The row mapping                                                    *)
(* ===================================================================== *)

Lemma well_formed_row_truthy (row : JsValue) :
  well_formed_row row = true -> Js.truthy row = true.
Proof.
  destruct row; simpl; try discriminate. reflexivity.
Qed.

Lemma get_missing (row : JsValue) (k : string) :
  Js.has row k = false -> Js.get row k = JUndefined.
Proof.
  unfold Js.has, Js.get. destruct row; try reflexivity.
  destruct (Js.lookup k props); [ discriminate | reflexivity ].
Qed.

(** C8 as stated fails: a row lacking email, username, password and both
    timestamps is not rejected.  [mapToDomain] returns an entity with those
    fields undefined or Invalid Date, and the lookup that reads such a row
    returns that entity without throwing. *)
Lemma mapToDomain_accepts_row_without_required_fields :
  lacks_required_field MemStore.bare_row = true
  /\ SupabaseUserRepository.mapToDomain MemStore.bare_row
     = Some {| User.id := JStr "u1";
               User.username := JUndefined;
               User.email := JUndefined;
               User.password := JUndefined;
               User.created_at := DateInvalid;
               User.updated_at := DateInvalid |}
  /\ fst (SupabaseUserRepository.findById MemStore.client "u1"
            (MemStore.world_of MemStore.bare_store))
     = Returned (Some {| User.id := JStr "u1";
                         User.username := JUndefined;
                         User.email := JUndefined;
                         User.password := JUndefined;
                         User.created_at := DateInvalid;
                         User.updated_at := DateInvalid |}).
Proof.
  repeat split.
Qed.

(** C8, as the code has it.  [mapToDomain] is total and validates nothing:
    a falsy row (null) maps to null; any other row maps to an entity whose
    fields are read off the row, so a well-formed row gives the entity with
    its six fields, and a row lacking a required field is mapped all the
    same, the missing field read as undefined (id, email, username,
    password) or turned into an Invalid Date (created_at, updated_at). *)
Theorem mapToDomain_total_without_validation :
  (forall row, well_formed_row row = true ->
      exists u, SupabaseUserRepository.mapToDomain row = Some u
                /\ User.id u = Js.get row "id"
                /\ User.email u = Js.get row "email"
                /\ User.username u = Js.get row "username"
                /\ User.password u = Js.get row "password"
                /\ User.created_at u = Js.newDate (Js.get row "created_at")
                /\ User.updated_at u = Js.newDate (Js.get row "updated_at"))
  /\ (forall row, Js.truthy row = true ->
         exists u, SupabaseUserRepository.mapToDomain row = Some u
                   /\ (Js.has row "id" = false -> User.id u = JUndefined)
                   /\ (Js.has row "email" = false -> User.email u = JUndefined)
                   /\ (Js.has row "username" = false -> User.username u = JUndefined)
                   /\ (Js.has row "password" = false -> User.password u = JUndefined)
                   /\ (Js.has row "created_at" = false ->
                         User.created_at u = DateInvalid)
                   /\ (Js.has row "updated_at" = false ->
                         User.updated_at u = DateInvalid))
  /\ (forall row, Js.truthy row = false ->
         SupabaseUserRepository.mapToDomain row = None).
Proof.
  split; [ | split ].
  - intros row Hwf. apply well_formed_row_truthy in Hwf.
    unfold SupabaseUserRepository.mapToDomain. rewrite Hwf. simpl.
    eexists. repeat split.
  - intros row Hrow.
    unfold SupabaseUserRepository.mapToDomain. rewrite Hrow. simpl.
    eexists. split; [ reflexivity | ]. simpl.
    repeat split; intros Hmissing; rewrite (get_missing row _ Hmissing); reflexivity.
  - intros row Hrow.
    unfold SupabaseUserRepository.mapToDomain. rewrite Hrow. reflexivity.
Qed.

Lemma mapToDomain_total_without_validation_witness :
  (exists u, SupabaseUserRepository.mapToDomain MemStore.alice_row = Some u
             /\ User.email u = JStr "alice@example.com")
  /\ (exists u, SupabaseUserRepository.mapToDomain MemStore.bare_row = Some u
                /\ User.email u = JUndefined
                /\ User.created_at u = DateInvalid)
  /\ SupabaseUserRepository.mapToDomain JNull = None.
Proof.
  destruct mapToDomain_total_without_validation as [Hwf [Hany Hnull]].
  split; [ | split ].
  - destruct (Hwf MemStore.alice_row eq_refl) as [u [Hu [_ [Hemail _]]]].
    exists u. split; [ exact Hu | exact Hemail ].
  - destruct (Hany MemStore.bare_row eq_refl)
      as [u [Hu [_ [Hemail [_ [_ [Hcreated _]]]]]]].
    exists u. split; [ exact Hu | ].
    split; [ apply Hemail | apply Hcreated ]; reflexivity.
  - apply Hnull. reflexivity.
Defined.

(* ===================================================================== *)
(** ** The health endpoint                                                *)
(* ===================================================================== *)

Section HealthFacts.

Variable Store : Type.
Variable client : SupabaseClient Store.

(** The reachability check answered without an error: 200 and
    [{ status: 'ok', timestamp }]. *)
Lemma health_ok (w : World Store) (d : JsValue) :
  select_head_count client "users" (store w) = Returned {| data := d; error := None |} ->
  fst (Health.handler client w)
  = Returned {| statusCode := 200;
                payload := JObj [("status", JStr "ok");
                                 ("timestamp", JStr (now_iso w))] |}.
Proof.
  intros H. unfold Health.handler, Health.query_head_count, try_catch, bind, emit.
  simpl. rewrite H. reflexivity.
Qed.

(** The check answered with an error: 503, and the body carries the
    message of that error under [error]. *)
Lemma health_unavailable (w : World Store) (d : JsValue) (e : PostgrestError) :
  select_head_count client "users" (store w)
  = Returned {| data := d; error := Some e |} ->
  fst (Health.handler client w)
  = Returned {| statusCode := 503;
                payload := JObj [("status", JStr "error");
                                 ("message", JStr "Service unavailable");
                                 ("error", JStr ("Supabase reachability check failed: "
                                                 ++ pg_message e));
                                 ("timestamp", JStr (now_iso w))] |}.
Proof.
  intros H. unfold Health.handler, Health.query_head_count, try_catch, bind, emit.
  simpl. rewrite H. reflexivity.
Qed.

End HealthFacts.

(** What the serializer makes of the two payloads of the health handler,
    given that it writes strings as they are. *)
Lemma respond_health (asString asDateTime : JsValue -> option JsValue)
      (failure_message : string -> string) :
  (forall s, asString (JStr s) = Some (JStr s)) ->
  (forall s, asDateTime (JStr s) = Some (JStr s)) ->
  forall now detail : string,
    ResponseSchema.respond asString asDateTime failure_message Health.response_schemas
      {| statusCode := 200;
         payload := JObj [("status", JStr "ok"); ("timestamp", JStr now)] |}
    = {| statusCode := 200;
         payload := JObj [("status", JStr "ok"); ("timestamp", JStr now)] |}
    /\ ResponseSchema.respond asString asDateTime failure_message Health.response_schemas
         {| statusCode := 503;
            payload := JObj [("status", JStr "error");
                             ("message", JStr "Service unavailable");
                             ("error", JStr detail);
                             ("timestamp", JStr now)] |}
       = {| statusCode := 503;
            payload := JObj [("status", JStr "error");
                             ("message", JStr "Service unavailable");
                             ("timestamp", JStr now)] |}.
Proof.
  intros Hstr Hdt now detail.
  unfold ResponseSchema.respond, ResponseSchema.serialize. simpl.
  rewrite !Hstr, !Hdt. split; reflexivity.
Qed.

(** C9. GET /health answers 200 with the body [{status: "ok", timestamp}]
    when the reachability check came back without an error, and otherwise
    (the check came back with an error, or the call was rejected with an
    error) 503 with a body of exactly [{status: "error", message,
    timestamp}]: the handler hands the failure text to [reply.send] under
    [error], but the 503 response schema of the route declares no such
    property, so it is not written.  The body is the same whatever the
    failure was. *)
Theorem health_response_bodies :
  forall (Store : Type) (client : SupabaseClient Store)
         (asString asDateTime : JsValue -> option JsValue)
         (failure_message : string -> string) (w : World Store),
    (forall s, asString (JStr s) = Some (JStr s)) ->
    (forall s, asDateTime (JStr s) = Some (JStr s)) ->
    let run := Health.get_health client asString asDateTime failure_message w in
    let unavailable :=
      {| statusCode := 503;
         payload := JObj [("status", JStr "error");
                          ("message", JStr "Service unavailable");
                          ("timestamp", JStr (now_iso w))] |} in
    (forall r,
        select_head_count client "users" (store w) = Returned r ->
        error r = None ->
        fst run = Returned {| statusCode := 200;
                              payload := JObj [("status", JStr "ok");
                                               ("timestamp", JStr (now_iso w))] |})
    /\ (forall r e,
           select_head_count client "users" (store w) = Returned r ->
           error r = Some e ->
           fst run = Returned unavailable)
    /\ (forall e,
           select_head_count client "users" (store w) = Thrown e ->
           fst run = Returned unavailable)
    /\ Js.keys (payload unavailable) = ["status"; "message"; "timestamp"]
    /\ Js.has (payload unavailable) "error" = false.
Proof.
  intros Store client asString asDateTime failure_message w Hstr Hdt run unavailable.
  subst run unavailable.
  unfold Health.get_health, Health.handler, Health.query_head_count,
    try_catch, bind, emit, read_clock, ret. simpl.
  split; [ | split; [ | split; [ | split; reflexivity ] ] ].
  - intros r Hr Hnone. rewrite Hr. destruct r as [d err]. simpl in Hnone.
    subst err. simpl. f_equal.
    apply (@respond_health asString asDateTime failure_message Hstr Hdt (now_iso w) "").
  - intros r e Hr He. rewrite Hr. destruct r as [d err]. simpl in He.
    subst err. simpl. f_equal.
    apply (@respond_health asString asDateTime failure_message Hstr Hdt (now_iso w)
             ("Supabase reachability check failed: " ++ pg_message e)).
  - intros e He. rewrite He. simpl. f_equal.
    apply (@respond_health asString asDateTime failure_message Hstr Hdt (now_iso w) (Err.message e)).
Qed.

Lemma health_response_bodies_witness :
  fst (Health.get_health MemStore.client (fun v => Some v) (fun v => Some v)
         (fun key => key) (MemStore.world_of MemStore.unreachable))
  = Returned {| statusCode := 503;
                payload := JObj [("status", JStr "error");
                                 ("message", JStr "Service unavailable");
                                 ("timestamp", JStr "2024-06-01T08:30:00.000Z")] |}.
Proof.
  destruct (health_response_bodies MemStore.client (fun v => Some v) (fun v => Some v)
              (fun key => key) (MemStore.world_of MemStore.unreachable)
              (fun s => eq_refl) (fun s => eq_refl))
    as [_ [Herror _]].
  apply (Herror {| data := JNull; error := Some MemStore.network_error |}
                MemStore.network_error eq_refl eq_refl).
Defined.

(* ===================================================================== *)
(** ** Further properties of the handlers                                 *)
(* ===================================================================== *)





Lemma filter_queries_snoc (tr : list Event) (ev : Event) :
  filter is_store_query (tr ++ [ev])
  = (filter is_store_query tr ++ (if is_store_query ev then [ev] else []))%list.
Proof.
  rewrite filter_app. simpl. destruct (is_store_query ev); reflexivity.
Qed.

(** The reply of the GET handler over the Supabase repository, before the
    response schema is applied, once the lookup has resolved. *)
Lemma get_user_decision_table :
  forall (Store : Type) (client : SupabaseClient Store) (s : string)
         (w : World Store) (r : PostgrestResponse),
    select_eq_maybeSingle client "users" "id" s (store w) = Returned r ->
    let run := UserRoutes.get_user client s w in
    store (snd run) = store w
    /\ (statusCode_of_run run = Some 400 <-> s = "")
    /\ (s = "" ->
        fst run = Returned (Sensible.badRequest "Invalid user ID format provided.")
        /\ filter is_store_query (trace (snd run)) = filter is_store_query (trace w))
    /\ (s <> "" ->
        filter is_store_query (trace (snd run))
        = (filter is_store_query (trace w) ++ [EvSelect "users" "id" s])%list)
    /\ (s <> "" -> error r <> None ->
        fst run = Returned (Sensible.internalServerError
                              "A database error occurred while fetching the user."))
    /\ (s <> "" -> error r = None -> Js.truthy (data r) = false ->
        fst run = Returned (Sensible.notFound ("User with ID " ++ s ++ " not found.")))
    /\ (s <> "" -> error r = None -> Js.truthy (data r) = true ->
        fst run
        = Returned {| statusCode := 200;
                      payload := JObj [("id", Js.get (data r) "id");
                                       ("email", Js.get (data r) "email");
                                       ("created_at",
                                        JDate (Js.newDate (Js.get (data r) "created_at")))] |}).
Proof.
  intros Store client s w r Hsel run.
  destruct (string_dec s "") as [Hs|Hs].
  - subst s. subst run. cbn.
    repeat split; try reflexivity; try (intros; congruence).
    rewrite filter_queries_snoc. simpl. apply app_nil_r.
  - assert (E : run
                = match error r with
                  | Some e =>
                      (Returned (Sensible.internalServerError
                                   "A database error occurred while fetching the user."),
                       with_events w
                         [EvSelect "users" "id" s;
                          EvConsole "error"
                            ("Supabase error during findById " ++ s ++ ": "
                             ++ pg_message e ++ " (Code: " ++ pg_code e ++ ")");
                          EvRequestLog "error" "Error fetching user by ID"
                            (Some (DatabaseError
                                     ("Database operation failed: findById " ++ s)
                                     (Some e)))])
                  | None =>
                      match SupabaseUserRepository.mapToDomain (data r) with
                      | Some u =>
                          (Returned {| statusCode := 200;
                                       payload := UserHandler.mapUserToResponse u |},
                           with_events w [EvSelect "users" "id" s;
                                          EvRequestLog "debug" "DATA: " None])
                      | None =>
                          (Returned (Sensible.notFound
                                       ("User with ID " ++ s ++ " not found.")),
                           with_events w [EvSelect "users" "id" s])
                      end
                  end).
    { subst run.
      unfold UserRoutes.get_user, UserRoutes.get_user_params,
        UserHandler.getUserById, try_catch, bind.
      rewrite (getUserById_delegates (UserRoutes.userRepository client) w Hs).
      unfold UserRoutes.userRepository, SupabaseUserRepository.repository. simpl.
      rewrite findById_run, Hsel.
      destruct (error r) as [e|]; simpl.
      - unfold with_events. simpl. rewrite <- app_assoc. reflexivity.
      - destruct (SupabaseUserRepository.mapToDomain (data r)); simpl.
        + unfold with_events. simpl. rewrite <- app_assoc. reflexivity.
        + reflexivity. }
    clearbody run. subst run.
    unfold SupabaseUserRepository.mapToDomain.
    destruct (error r) as [e|]; [ | destruct (Js.truthy (data r)) ]; simpl;
      unfold statusCode_of_run; simpl.
    all: repeat split; try reflexivity; try congruence.
    all: try (intros; discriminate).
    all: try (intros; exfalso; congruence).
    all: try (intros _; rewrite filter_app; reflexivity).
Qed.

(* ===================================================================== *)
(** ** Further properties of creation                                     *)
(* ===================================================================== *)

Section CreationFacts.

Variable Store : Type.
Variable client : SupabaseClient Store.

(** [createUser] up to the call of [create]. *)
Lemma createUser_run (userData : CreateUserDTO.t) (w : World Store) :
  UserService.createUser (UserRoutes.userRepository client) userData w
  = match select_eq_maybeSingle client "users" "email"
            (CreateUserDTO.email userData) (store w) with
    | Thrown e => (Thrown e, after_precheck userData w)
    | Returned r =>
        match error r with
        | Some e =>
            (Thrown (DatabaseError
                       ("Database operation failed: findByEmail "
                        ++ CreateUserDTO.email userData) (Some e)),
             with_events (after_precheck userData w)
               [EvConsole "error"
                  ("Supabase error during findByEmail "
                   ++ CreateUserDTO.email userData ++ ": " ++ pg_message e
                   ++ " (Code: " ++ pg_code e ++ ")")])
        | None =>
            if Js.truthy (data r)
            then (Thrown (ApplicationError "User with this email already exists."
                            (Some 409)),
                  after_precheck userData w)
            else
              match SupabaseUserRepository.create client userData
                      (after_precheck userData w) with
              | (Returned u, w2) => (Returned u, w2)
              | (Thrown _, w2) =>
                  (Thrown (ApplicationError
                             "Failed to create user due to a database issue."
                             (Some 500)),
                   with_events w2
                     [EvConsole "error" "Database error during user creation:"])
              end
        end
    end.
Proof.
  unfold UserService.createUser, after_precheck.
  unfold bind at 1. simpl.
  unfold bind at 1.
  unfold UserRoutes.userRepository, SupabaseUserRepository.repository. simpl.
  rewrite findByEmail_run. simpl.
  destruct (select_eq_maybeSingle client "users" "email"
              (CreateUserDTO.email userData) (store w)) as [[d [e|]]|e]; simpl.
  - unfold with_events. simpl. rewrite <- !app_assoc. reflexivity.
  - unfold SupabaseUserRepository.mapToDomain.
    destruct (Js.truthy d); simpl.
    + unfold with_events. simpl. rewrite <- !app_assoc. reflexivity.
    + unfold try_catch, bind, with_events. simpl. rewrite <- !app_assoc. simpl.
      destruct (SupabaseUserRepository.create client userData _) as [[u|e] w2];
        reflexivity.
  - unfold with_events. simpl. rewrite <- !app_assoc. reflexivity.
Qed.

(** [create] sends exactly one insert, the row built from the DTO, and
    leaves the store as the insert left it. *)
Lemma create_sends_one_insert (userData : CreateUserDTO.t) (w : World Store) :
  filter is_insert (trace (snd (SupabaseUserRepository.create client userData w)))
  = (filter is_insert (trace w)
       ++ [EvInsert "users" (SupabaseUserRepository.dbData_of userData)])%list
  /\ store (snd (SupabaseUserRepository.create client userData w))
     = snd (insert_select_single client "users"
              (SupabaseUserRepository.dbData_of userData) (store w)).
Proof.
  unfold SupabaseUserRepository.create, SupabaseUserRepository.query_insert,
    SupabaseUserRepository.tableName, bind, emit. simpl.
  destruct (insert_select_single client "users"
              (SupabaseUserRepository.dbData_of userData) (store w))
    as [[[d [e|]]|e] s']; simpl.
  - destruct (String.eqb (pg_code e) "23505"); simpl;
      rewrite !filter_app; simpl; rewrite ?app_nil_r; split; reflexivity.
  - unfold SupabaseUserRepository.mapToDomain.
    destruct (Js.truthy d); simpl;
      rewrite !filter_app; simpl; rewrite ?app_nil_r; split; reflexivity.
  - rewrite !filter_app; simpl; split; reflexivity.
Qed.

End CreationFacts.

(** X4. [createUser] over the Supabase repository sends an insert exactly
    when the pre-check came back clean (the lookup by email resolved with no
    error and no row), then exactly one, carrying the email, username and
    password of the input and nothing else.  In every other case (a row was
    found, the lookup failed or was rejected) nothing is inserted and the
    store is unchanged. *)
Theorem createUser_insert_discipline :
  forall (Store : Type) (client : SupabaseClient Store)
         (userData : CreateUserDTO.t) (w : World Store),
    let run := UserService.createUser (UserRoutes.userRepository client) userData w in
    filter is_insert (trace (snd run))
    = (filter is_insert (trace w)
         ++ (if precheck_clean client (CreateUserDTO.email userData) (store w)
             then [EvInsert "users"
                     (JObj [("email", JStr (CreateUserDTO.email userData));
                            ("username", CreateUserDTO.username userData);
                            ("password", CreateUserDTO.password userData)])]
             else []))%list
    /\ store (snd run)
       = (if precheck_clean client (CreateUserDTO.email userData) (store w)
          then snd (insert_select_single client "users"
                      (SupabaseUserRepository.dbData_of userData) (store w))
          else store w).
Proof.
  intros Store client userData w run. subst run.
  rewrite createUser_run. unfold precheck_clean.
  destruct (select_eq_maybeSingle client "users" "email"
              (CreateUserDTO.email userData) (store w)) as [[d [e|]]|e]; simpl.
  - rewrite !filter_app. simpl. rewrite !app_nil_r. split; reflexivity.
  - destruct (Js.truthy d); simpl.
    + rewrite !filter_app. simpl. split; reflexivity.
    + destruct (create_sends_one_insert client userData (after_precheck userData w))
        as [Htrace Hstore].
      destruct (SupabaseUserRepository.create client userData
                  (after_precheck userData w)) as [[u|e] w2]; simpl in *.
      * rewrite Htrace, Hstore. rewrite !filter_app. simpl.
        rewrite app_nil_r. split; reflexivity.
      * rewrite filter_app, Htrace, Hstore. rewrite !filter_app. simpl.
        rewrite !app_nil_r. split; reflexivity.
  - rewrite !filter_app. simpl. rewrite !app_nil_r. split; reflexivity.
Qed.

Section CreationOutcomes.

Variable Store : Type.
Variable client : SupabaseClient Store.

(** The outcome of [create] by the outcome of the insert. *)
Lemma create_outcome (userData : CreateUserDTO.t) (w : World Store) :
  fst (SupabaseUserRepository.create client userData w)
  = match fst (insert_select_single client "users"
                 (SupabaseUserRepository.dbData_of userData) (store w)) with
    | Thrown e => Thrown e
    | Returned r =>
        match error r with
        | Some e =>
            if String.eqb (pg_code e) "23505"
            then Thrown (DatabaseError SupabaseUserRepository.unique_violation_message
                           (Some e))
            else Thrown (DatabaseError
                           ("Database operation failed: create user with email "
                            ++ CreateUserDTO.email userData) (Some e))
        | None =>
            match SupabaseUserRepository.mapToDomain (data r) with
            | Some u => Returned u
            | None => Thrown (DatabaseError
                                "User creation failed: No data returned from database"
                                None)
            end
        end
    end.
Proof.
  destruct (insert_select_single client "users"
              (SupabaseUserRepository.dbData_of userData) (store w))
    as [[r|e] s'] eqn:Hins.
  - apply (create_run client userData w Hins).
  - unfold SupabaseUserRepository.create, SupabaseUserRepository.query_insert,
      SupabaseUserRepository.tableName, bind, emit. simpl.
    rewrite Hins. reflexivity.
Qed.

(** When the insert did not succeed, [create] throws. *)
Lemma create_throws_on_failed_insert (userData : CreateUserDTO.t) (w : World Store) :
  insert_succeeded (fst (insert_select_single client "users"
                           (SupabaseUserRepository.dbData_of userData) (store w)))
  = false ->
  exists e, fst (SupabaseUserRepository.create client userData w) = Thrown e.
Proof.
  intros H. rewrite create_outcome.
  destruct (fst (insert_select_single client "users"
                   (SupabaseUserRepository.dbData_of userData) (store w)))
    as [[d [e|]]|e]; simpl in *.
  - destruct (String.eqb (pg_code e) "23505"); eauto.
  - unfold SupabaseUserRepository.mapToDomain. rewrite H. simpl. eauto.
  - eauto.
Qed.

End CreationOutcomes.

(** The reply of the POST handler, before the response schema is applied,
    when the pre-check came back clean and the insert resolved with a row
    and no error. *)
Lemma post_user_created_from_stored_row :
  forall (Store : Type) (client : SupabaseClient Store)
         (userData : CreateUserDTO.t) (w : World Store)
         (row : JsValue) (s' : Store),
    precheck_clean client (CreateUserDTO.email userData) (store w) = true ->
    insert_select_single client "users"
      (SupabaseUserRepository.dbData_of userData) (store w)
    = (Returned {| data := row; error := None |}, s') ->
    Js.truthy row = true ->
    let run := UserRoutes.post_user client userData w in
    fst run
    = Returned {| statusCode := 201;
                  payload := JObj [("id", Js.get row "id");
                                   ("email", Js.get row "email");
                                   ("created_at",
                                    JDate (Js.newDate (Js.get row "created_at")))] |}
    /\ store (snd run) = s'.
Proof.
  intros Store client userData w row s' Hclean Hins Hrow run. subst run.
  unfold UserRoutes.post_user, UserHandler.createUser, try_catch, bind.
  rewrite createUser_run. unfold precheck_clean in Hclean.
  destruct (select_eq_maybeSingle client "users" "email"
              (CreateUserDTO.email userData) (store w)) as [[d [e|]]|e];
    try discriminate Hclean.
  simpl in *. destruct (Js.truthy d); [ discriminate Hclean | ].
  pose proof (create_outcome client userData (after_precheck userData w)) as Hout.
  destruct (create_sends_one_insert client userData (after_precheck userData w))
    as [_ Hstore].
  simpl in Hout, Hstore. rewrite Hins in Hout, Hstore. simpl in Hout, Hstore.
  unfold SupabaseUserRepository.mapToDomain in Hout. rewrite Hrow in Hout.
  simpl in Hout.
  destruct (SupabaseUserRepository.create client userData (after_precheck userData w))
    as [[u|e] w2]; simpl in *; [ | discriminate Hout ].
  inversion Hout; subst u. split; [ reflexivity | exact Hstore ].
Qed.

(** X6. A POST whose pre-check came back clean but whose insert did not
    succeed (the store answered with an error, the unique violation 23505
    of a lost race included, or with no row, or the call was rejected)
    leaves the service as the ApplicationError with code 500 and is answered
    500 with the fixed message for unexpected errors: never 409, and nothing
    of the store's error reaches the body. *)
Theorem post_user_failed_insert_is_generic_500 :
  forall (Store : Type) (client : SupabaseClient Store)
         (userData : CreateUserDTO.t) (w : World Store),
    precheck_clean client (CreateUserDTO.email userData) (store w) = true ->
    insert_succeeded (fst (insert_select_single client "users"
                             (SupabaseUserRepository.dbData_of userData) (store w)))
    = false ->
    fst (UserService.createUser (UserRoutes.userRepository client) userData w)
    = Thrown (ApplicationError "Failed to create user due to a database issue."
                (Some 500))
    /\ fst (UserRoutes.post_user client userData w)
       = Returned (Sensible.internalServerError
                     "An unexpected error occurred while creating the user.").
Proof.
  intros Store client userData w Hclean Hfail.
  assert (E : fst (UserService.createUser (UserRoutes.userRepository client) userData w)
              = Thrown (ApplicationError
                          "Failed to create user due to a database issue." (Some 500))).
  { rewrite createUser_run. unfold precheck_clean in Hclean.
    destruct (select_eq_maybeSingle client "users" "email"
                (CreateUserDTO.email userData) (store w)) as [[d [e|]]|e];
      try discriminate Hclean.
    simpl in *. destruct (Js.truthy d); [ discriminate Hclean | ].
    destruct (create_throws_on_failed_insert client userData
                (after_precheck userData w) Hfail) as [e He].
    destruct (SupabaseUserRepository.create client userData (after_precheck userData w))
      as [[u|e'] w2]; simpl in *; [ discriminate He | reflexivity ]. }
  split; [ exact E | ].
  unfold UserRoutes.post_user.
  destruct (UserService.createUser (UserRoutes.userRepository client) userData w)
    as [o w1] eqn:Hrun.
  simpl in E. subst o.
  rewrite (createUser_handler_on_throw _ userData w Hrun). reflexivity.
Qed.

Lemma post_user_failed_insert_is_generic_500_witness :
  fst (UserRoutes.post_user lost_race_client MemStore.bob unit_world)
  = Returned (Sensible.internalServerError
                "An unexpected error occurred while creating the user.").
Proof.
  apply (post_user_failed_insert_is_generic_500 lost_race_client MemStore.bob
           unit_world).
  - reflexivity.
  - reflexivity.
Defined.

(* ===================================================================== *)
(** ** The errors of the repository                                       *)
(* ===================================================================== *)

(** X7. Once the store has resolved, every error the Supabase repository
    throws is a [DatabaseError] that carries the store's own error as
    [originalError] (none when the store gave none).  A lookup throws
    exactly when the response carries an error, whether or not a row came
    with it. *)
Theorem repository_throws_only_DatabaseError :
  forall (Store : Type) (client : SupabaseClient Store) (w : World Store),
    (forall id r,
        select_eq_maybeSingle client "users" "id" id (store w) = Returned r ->
        (forall pe, error r = Some pe ->
            fst (SupabaseUserRepository.findById client id w)
            = Thrown (DatabaseError ("Database operation failed: findById " ++ id)
                        (Some pe)))
        /\ (error r = None ->
            fst (SupabaseUserRepository.findById client id w)
            = Returned (SupabaseUserRepository.mapToDomain (data r))))
    /\ (forall email r,
           select_eq_maybeSingle client "users" "email" email (store w) = Returned r ->
           (forall pe, error r = Some pe ->
               fst (SupabaseUserRepository.findByEmail client email w)
               = Thrown (DatabaseError
                           ("Database operation failed: findByEmail " ++ email)
                           (Some pe)))
           /\ (error r = None ->
               fst (SupabaseUserRepository.findByEmail client email w)
               = Returned (SupabaseUserRepository.mapToDomain (data r))))
    /\ (forall userData r s' e,
           insert_select_single client "users"
             (SupabaseUserRepository.dbData_of userData) (store w) = (Returned r, s') ->
           fst (SupabaseUserRepository.create client userData w) = Thrown e ->
           Err.name e = "DatabaseError" /\ Err.originalError e = error r).
Proof.
  intros Store client w. split; [ | split ].
  - intros id r Hsel. rewrite findById_run, Hsel.
    split; [ intros pe Hpe | intros Hnone ].
    + rewrite Hpe. reflexivity.
    + rewrite Hnone. reflexivity.
  - intros email r Hsel. rewrite findByEmail_run, Hsel.
    split; [ intros pe Hpe | intros Hnone ].
    + rewrite Hpe. reflexivity.
    + rewrite Hnone. reflexivity.
  - intros userData r s' e Hins Hthrow.
    rewrite create_outcome, Hins in Hthrow. simpl in Hthrow.
    destruct (error r) as [pe|].
    + destruct (String.eqb (pg_code pe) "23505");
        inversion Hthrow; subst e; split; reflexivity.
    + destruct (SupabaseUserRepository.mapToDomain (data r));
        [ discriminate Hthrow | ].
      inversion Hthrow; subst e; split; reflexivity.
Qed.

Lemma repository_throws_only_DatabaseError_witness :
  fst (SupabaseUserRepository.findById MemStore.client "u1"
         (MemStore.world_of MemStore.unreachable))
  = Thrown (DatabaseError "Database operation failed: findById u1"
              (Some MemStore.network_error)).
Proof.
  destruct (repository_throws_only_DatabaseError MemStore.client
              (MemStore.world_of MemStore.unreachable)) as [Hid _].
  destruct (Hid "u1" {| data := JNull; error := Some MemStore.network_error |} eq_refl)
    as [Herr _].
  apply Herr. reflexivity.
Defined.

(* ===================================================================== *)
(** ** Further properties of the health endpoint                          *)
(* ===================================================================== *)

(** The reply of the health handler, before the response schema is
    applied: status, queries sent and the object handed to [reply.send]. *)
Lemma health_handler_reply :
  forall (Store : Type) (client : SupabaseClient Store) (w : World Store),
    let run := Health.handler client w in
    exists reply,
      fst run = Returned reply
      /\ store (snd run) = store w
      /\ filter is_store_query (trace (snd run))
         = (filter is_store_query (trace w) ++ [EvHeadCount "users"])%list
      /\ (statusCode reply = 200 \/ statusCode reply = 503)
      /\ (statusCode reply = 200
          <-> exists r, select_head_count client "users" (store w) = Returned r
                        /\ error r = None)
      /\ Js.get (payload reply) "timestamp" = JStr (now_iso w)
      /\ (forall r pe,
             select_head_count client "users" (store w) = Returned r ->
             error r = Some pe ->
             Js.get (payload reply) "error"
             = JStr ("Supabase reachability check failed: " ++ pg_message pe))
      /\ (forall e,
             select_head_count client "users" (store w) = Thrown e ->
             Js.get (payload reply) "error" = JStr (Err.message e)).
Proof.
  intros Store client w run. subst run.
  unfold Health.handler, Health.query_head_count, try_catch, bind, emit, read_clock.
  simpl.
  destruct (select_head_count client "users" (store w)) as [[d [pe|]]|e]; simpl.
  - eexists. split; [ reflexivity | ]. simpl.
    rewrite !filter_app. simpl. rewrite app_nil_r.
    repeat split; auto.
    + intros H; discriminate H.
    + intros [r [Hr Hnone]]. inversion Hr; subst r. discriminate Hnone.
    + intros r pe' Hr Hpe. inversion Hr; subst r. simpl in Hpe.
      inversion Hpe; subst pe'. reflexivity.
    + intros e He. discriminate He.
  - eexists. split; [ reflexivity | ]. simpl.
    rewrite !filter_app. simpl.
    repeat split; auto.
    + intros _. eexists. split; reflexivity.
    + intros r pe' Hr Hpe. inversion Hr; subst r. discriminate Hpe.
    + intros e He. discriminate He.
  - eexists. split; [ reflexivity | ]. simpl.
    rewrite !filter_app. simpl. rewrite app_nil_r.
    repeat split; auto.
    + intros H; discriminate H.
    + intros [r [Hr _]]. discriminate Hr.
    + intros r pe' Hr _. discriminate Hr.
    + intros e' He. inversion He; subst e'. reflexivity.
Qed.

(* ===================================================================== *)
(** ** The client singleton                                               *)
(* ===================================================================== *)

Section SingletonFacts.

Variable Client : Type.
Variable Fastify : Type.

(** After a successful call the module variable holds the client that was
    returned. *)
Lemma getSupabaseClient_sets_instance
      (createClient : string -> string -> Outcome Client)
      (config : SupabaseSingleton.Config)
      (w w' : World (SupabaseSingleton.State Client Fastify)) (c : Client) :
  SupabaseSingleton.getSupabaseClient createClient config w = (Returned c, w') ->
  SupabaseSingleton.supabaseInstance (store w') = Some c.
Proof.
  unfold SupabaseSingleton.getSupabaseClient.
  destruct (SupabaseSingleton.supabaseInstance (store w)) as [inst|] eqn:Hinst.
  - intros H. inversion H; subst. exact Hinst.
  - destruct (String.eqb (SupabaseSingleton.url config) ""
              || String.eqb (SupabaseSingleton.anonKey config) "").
    + unfold bind, emit, throw. simpl. discriminate.
    + destruct (createClient (SupabaseSingleton.url config)
                  (SupabaseSingleton.anonKey config)) as [c0|e];
        unfold bind, emit, throw, ret, SupabaseSingleton.set_instance; simpl.
      * intros H. inversion H; subst. reflexivity.
      * discriminate.
Qed.

End SingletonFacts.

(** X9. [getSupabaseClient] is a singleton: once a call has returned a
    client, every later call returns that same client and changes nothing,
    whatever the configuration has become and without calling
    [createClient] again. *)
Theorem getSupabaseClient_is_singleton :
  forall (Client Fastify : Type)
         (createClient : string -> string -> Outcome Client)
         (config : SupabaseSingleton.Config)
         (w w' : World (SupabaseSingleton.State Client Fastify)) (c : Client),
    SupabaseSingleton.getSupabaseClient createClient config w = (Returned c, w') ->
    forall (createClient' : string -> string -> Outcome Client)
           (config' : SupabaseSingleton.Config),
      SupabaseSingleton.getSupabaseClient createClient' config' w' = (Returned c, w').
Proof.
  intros Client Fastify createClient config w w' c Hfirst createClient' config'.
  apply getSupabaseClient_sets_instance in Hfirst.
  unfold SupabaseSingleton.getSupabaseClient. rewrite Hfirst. reflexivity.
Qed.

Lemma getSupabaseClient_is_singleton_witness :
  let w0 := {| store := {| SupabaseSingleton.supabaseInstance := None;
                           SupabaseSingleton.fastify := tt |};
               now_iso := "2024-06-01T08:30:00.000Z"; trace := [] |} in
  let config := {| SupabaseSingleton.url := "https://example.supabase.co";
                   SupabaseSingleton.anonKey := "anon" |} in
  let first := SupabaseSingleton.getSupabaseClient (Fastify := unit)
                 (fun u _ => Returned u) config w0 in
  SupabaseSingleton.getSupabaseClient (fun _ _ => Thrown (PlainError "offline"))
    {| SupabaseSingleton.url := ""; SupabaseSingleton.anonKey := "" |} (snd first)
  = (Returned "https://example.supabase.co", snd first).
Proof.
  intros w0 config first.
  apply (getSupabaseClient_is_singleton (fun u _ => Returned u) config w0).
  reflexivity.
Defined.

(** X10. A failed initialisation leaves the singleton unset, so the next
    call tries again.  With no instance yet: an empty URL or key throws the
    missing-configuration error without calling [createClient]; an
    exception of [createClient] is rethrown as it is; and whenever the call
    throws, the module variable is still null and the Fastify instance
    untouched. *)
Theorem getSupabaseClient_failure_keeps_unset :
  forall (Client Fastify : Type)
         (createClient : string -> string -> Outcome Client)
         (config : SupabaseSingleton.Config)
         (w : World (SupabaseSingleton.State Client Fastify)),
    SupabaseSingleton.supabaseInstance (store w) = None ->
    let run := SupabaseSingleton.getSupabaseClient createClient config w in
    (SupabaseSingleton.url config = "" \/ SupabaseSingleton.anonKey config = "" ->
     fst run
     = Thrown (PlainError "Supabase URL or Anon Key is missing in configuration."))
    /\ (SupabaseSingleton.url config <> "" ->
        SupabaseSingleton.anonKey config <> "" ->
        forall e,
          createClient (SupabaseSingleton.url config)
            (SupabaseSingleton.anonKey config) = Thrown e ->
          fst run = Thrown e)
    /\ (forall e, fst run = Thrown e -> store (snd run) = store w).
Proof.
  intros Client Fastify createClient config w Hnone run. subst run.
  unfold SupabaseSingleton.getSupabaseClient. rewrite Hnone.
  split; [ | split ].
  - intros [Hu|Hk].
    + rewrite Hu. reflexivity.
    + rewrite Hk. rewrite orb_true_r. reflexivity.
  - intros Hu Hk e He.
    apply String.eqb_neq in Hu. apply String.eqb_neq in Hk.
    rewrite Hu, Hk, He. reflexivity.
  - intros e.
    destruct (String.eqb (SupabaseSingleton.url config) ""
              || String.eqb (SupabaseSingleton.anonKey config) "").
    + intros _. reflexivity.
    + destruct (createClient (SupabaseSingleton.url config)
                  (SupabaseSingleton.anonKey config)) as [c|e0]; simpl.
      * discriminate.
      * intros _. reflexivity.
Qed.

Lemma getSupabaseClient_failure_keeps_unset_witness :
  fst (SupabaseSingleton.getSupabaseClient (Client := string) (Fastify := unit)
         (fun u _ => Returned u)
         {| SupabaseSingleton.url := "https://example.supabase.co";
            SupabaseSingleton.anonKey := "" |}
         {| store := {| SupabaseSingleton.supabaseInstance := None;
                        SupabaseSingleton.fastify := tt |};
            now_iso := "2024-06-01T08:30:00.000Z"; trace := [] |})
  = Thrown (PlainError "Supabase URL or Anon Key is missing in configuration.").
Proof.
  destruct (getSupabaseClient_failure_keeps_unset (Client := string) (Fastify := unit)
              (fun u _ => Returned u)
              {| SupabaseSingleton.url := "https://example.supabase.co";
                 SupabaseSingleton.anonKey := "" |}
              {| store := {| SupabaseSingleton.supabaseInstance := None;
                             SupabaseSingleton.fastify := tt |};
                 now_iso := "2024-06-01T08:30:00.000Z"; trace := [] |}
              eq_refl) as [Hmissing _].
  apply Hmissing. right. reflexivity.
Defined.

(** X11. Whatever goes wrong in the Supabase plugin (missing
    configuration, an exception of [createClient], an exception of
    [decorate]), the plugin throws one and the same error, "Supabase plugin
    initialization failed."; the cause only goes to the log.  When the
    plugin succeeds, the singleton is set and the Fastify instance is the
    one [decorate] produced for it. *)
Theorem supabasePlugin_masks_the_cause :
  forall (Client Fastify : Type)
         (createClient : string -> string -> Outcome Client)
         (decorate : string -> Client -> Fastify -> Outcome unit * Fastify)
         (config : SupabaseSingleton.Config)
         (w : World (SupabaseSingleton.State Client Fastify)),
    let run := SupabaseSingleton.supabasePlugin createClient decorate config w in
    (forall e, fst run = Thrown e ->
               e = PlainError "Supabase plugin initialization failed.")
    /\ (fst run = Returned tt ->
        exists c,
          SupabaseSingleton.supabaseInstance (store (snd run)) = Some c
          /\ decorate "supabase" c (SupabaseSingleton.fastify (store w))
             = (Returned tt, SupabaseSingleton.fastify (store (snd run)))).
Proof.
  intros Client Fastify createClient decorate config w run. subst run.
  unfold SupabaseSingleton.supabasePlugin, try_catch, bind.
  destruct (SupabaseSingleton.getSupabaseClient createClient config w)
    as [[c|e0] w1] eqn:Hget.
  - pose proof (getSupabaseClient_sets_instance createClient config w Hget) as Hset.
    assert (Hf : SupabaseSingleton.fastify (store w1)
                 = SupabaseSingleton.fastify (store w)).
    { revert Hget. unfold SupabaseSingleton.getSupabaseClient.
      destruct (SupabaseSingleton.supabaseInstance (store w)).
      - intros H; inversion H; reflexivity.
      - destruct (String.eqb (SupabaseSingleton.url config) ""
                  || String.eqb (SupabaseSingleton.anonKey config) "").
        + unfold bind, emit, throw; simpl; discriminate.
        + destruct (createClient (SupabaseSingleton.url config)
                      (SupabaseSingleton.anonKey config));
            unfold bind, emit, throw, ret, SupabaseSingleton.set_instance; simpl;
            intros H; inversion H; reflexivity. }
    unfold SupabaseSingleton.call_decorate, emit, throw. rewrite Hf.
    destruct (decorate "supabase" c (SupabaseSingleton.fastify (store w)))
      as [[[]|e1] f'] eqn:Hdec; simpl.
    + split; [ intros e He; discriminate He | ].
      intros _. exists c. split; [ exact Hset | rewrite Hdec; reflexivity ].
    + split; [ intros e He; inversion He; reflexivity | ].
      intros H; discriminate H.
  - unfold emit, throw. simpl.
    split; [ intros e He; inversion He; reflexivity | ].
    intros H; discriminate H.
Qed.

(* ===================================================================== *)
(** ** Graceful shutdown                                                  *)
(* ===================================================================== *)

(** X12. The first signal starts the shutdown: the flag is raised and the
    process exits with 0 when [app.close()] resolved and with 1 when it was
    rejected; the handler itself never throws.  Any signal that arrives
    once the flag is raised does nothing at all. *)
Theorem shutdown_runs_once :
  forall (close close' : Outcome unit) (signal signal' : string) (w : World bool),
    let first := Shutdown.shutdown close signal w in
    (store w = false ->
     fst first = Returned (Some (match close with
                                 | Returned _ => 0
                                 | Thrown _ => 1
                                 end)))
    /\ (store w = true -> first = (Returned None, w))
    /\ store (snd first) = true
    /\ Shutdown.shutdown close' signal' (snd first) = (Returned None, snd first).
Proof.
  intros close close' signal signal' w first. subst first.
  assert (Hflag : store (snd (Shutdown.shutdown close signal w)) = true).
  { unfold Shutdown.shutdown. destruct (store w) eqn:Hw; [ exact Hw | ].
    unfold bind, try_catch, emit, ret. simpl. destruct close; reflexivity. }
  split; [ | split; [ | split ] ].
  - intros Hw. unfold Shutdown.shutdown. rewrite Hw.
    unfold bind, try_catch, emit, ret. simpl. destruct close; reflexivity.
  - intros Hw. unfold Shutdown.shutdown. rewrite Hw. reflexivity.
  - exact Hflag.
  - unfold Shutdown.shutdown at 1. rewrite Hflag. reflexivity.
Qed.

Lemma shutdown_runs_once_witness :
  fst (Shutdown.shutdown (Thrown (PlainError "close failed")) "SIGTERM"
         {| store := false; now_iso := "2024-06-01T08:30:00.000Z"; trace := [] |})
  = Returned (Some 1).
Proof.
  destruct (shutdown_runs_once (Thrown (PlainError "close failed")) (Returned tt)
              "SIGTERM" "SIGINT"
              {| store := false; now_iso := "2024-06-01T08:30:00.000Z"; trace := [] |})
    as [Hfirst _].
  apply Hfirst. reflexivity.
Defined.

Lemma supabasePlugin_masks_the_cause_witness :
  exists e,
    fst (SupabaseSingleton.supabasePlugin (Client := string) (Fastify := unit)
           (fun _ _ => Thrown (PlainError "offline"))
           (fun _ _ f => (Returned tt, f))
           {| SupabaseSingleton.url := "https://example.supabase.co";
              SupabaseSingleton.anonKey := "anon" |}
           {| store := {| SupabaseSingleton.supabaseInstance := None;
                          SupabaseSingleton.fastify := tt |};
              now_iso := "2024-06-01T08:30:00.000Z"; trace := [] |})
    = Thrown e
    /\ e = PlainError "Supabase plugin initialization failed.".
Proof.
  destruct (supabasePlugin_masks_the_cause (Client := string) (Fastify := unit)
              (fun _ _ => Thrown (PlainError "offline"))
              (fun _ _ f => (Returned tt, f))
              {| SupabaseSingleton.url := "https://example.supabase.co";
                 SupabaseSingleton.anonKey := "anon" |}
              {| store := {| SupabaseSingleton.supabaseInstance := None;
                             SupabaseSingleton.fastify := tt |};
                 now_iso := "2024-06-01T08:30:00.000Z"; trace := [] |})
    as [Hmask _].
  eexists. split; [ reflexivity | ].
  apply Hmask. reflexivity.
Defined.

(* ===================================================================== *)
(** ** The module generator                                               *)
(* ===================================================================== *)

Module GeneratorFacts.

Import Generator.

(** Facts about single characters, by enumeration. *)
Ltac by_enumeration c :=
  destruct c as [[|] [|] [|] [|] [|] [|] [|] [|]]; vm_compute; try reflexivity;
  try discriminate; auto.

Lemma toLowerChar_separator (c : ascii) :
  is_separator (toLowerChar c) = is_separator c.
Proof. by_enumeration c. Qed.

Lemma toUpperChar_separator (c : ascii) :
  is_separator (toUpperChar c) = is_separator c.
Proof. by_enumeration c. Qed.

Lemma valid_char_lower (c : ascii) :
  valid_char c = true -> lower_name_char (toLowerChar c) = true.
Proof. by_enumeration c. Qed.

Lemma lower_name_char_alnum (c : ascii) :
  lower_name_char c = true -> not_separator c = true ->
  is_alnum (toLowerChar c) = true /\ is_alnum (toUpperChar c) = true
  /\ is_alnum c = true.
Proof. by_enumeration c. Qed.

Lemma lower_name_char_path_safe (c : ascii) :
  lower_name_char c = true -> path_safe_char c = true.
Proof. by_enumeration c. Qed.

Lemma alnum_path_safe (c : ascii) :
  is_alnum c = true -> path_safe_char c = true.
Proof. by_enumeration c. Qed.

Lemma valid_char_not_equals (c : ascii) :
  valid_char c = true -> Ascii.eqb "=" c = false.
Proof. by_enumeration c. Qed.

(** Facts about strings. *)
Lemma append_empty_r (s : string) : (s ++ "")%string = s.
Proof. induction s as [|c s IH]; simpl; [ reflexivity | rewrite IH; reflexivity ]. Qed.

Lemma last_char_append (a b : string) :
  b <> EmptyString -> last_char (a ++ b) = last_char b.
Proof.
  intros Hb. induction a as [|c a IH]; simpl; [ reflexivity | ].
  destruct (a ++ b)%string eqn:E.
  - destruct a; simpl in E; [ congruence | discriminate ].
  - exact IH.
Qed.

Lemma endsWith_nonempty (s : string) (c : ascii) :
  endsWith s c = true -> s <> EmptyString.
Proof. destruct s; [ discriminate | discriminate ]. Qed.

Lemma all_chars_append (p : ascii -> bool) (a b : string) :
  all_chars p (a ++ b) = all_chars p a && all_chars p b.
Proof.
  induction a as [|c a IH]; simpl; [ reflexivity | ].
  rewrite IH, andb_assoc. reflexivity.
Qed.

Lemma all_chars_impl (p q : ascii -> bool) (s : string) :
  (forall c, p c = true -> q c = true) ->
  all_chars p s = true -> all_chars q s = true.
Proof.
  intros Hpq. induction s as [|c s IH]; simpl; [ reflexivity | ].
  intros H. apply andb_true_iff in H. destruct H as [Hc Hs].
  rewrite (Hpq c Hc), (IH Hs). reflexivity.
Qed.

Lemma all_chars_drop_last (p : ascii -> bool) (s : string) :
  all_chars p s = true -> all_chars p (drop_last s) = true.
Proof.
  induction s as [|c s IH]; simpl; [ reflexivity | ].
  intros H. apply andb_true_iff in H. destruct H as [Hc Hs].
  destruct s as [|c' s']; [ reflexivity | ].
  change (drop_last (String c (String c' s')))
    with (String c (drop_last (String c' s'))).
  cbn [all_chars]. rewrite Hc. apply (IH Hs).
Qed.

Lemma drop_last_restore (s : string) (c : ascii) :
  endsWith s c = true -> (drop_last s ++ String c EmptyString)%string = s.
Proof.
  unfold endsWith. induction s as [|c0 s IH]; [ discriminate | ].
  destruct s as [|c1 s1].
  - simpl. intros H. apply Ascii.eqb_eq in H. subst. reflexivity.
  - intros H. change (last_char (String c0 (String c1 s1)))
      with (last_char (String c1 s1)) in H.
    change (drop_last (String c0 (String c1 s1)))
      with (String c0 (drop_last (String c1 s1))).
    cbn [append]. f_equal. apply (IH H).
Qed.

Lemma pluralize_fixed (s : string) :
  endsWith s "s" = true -> pluralize s = s.
Proof.
  intros H. destruct s as [|c s]; [ reflexivity | ].
  unfold pluralize. rewrite H. reflexivity.
Qed.

Lemma endsWith_append_s (a b : string) :
  endsWith (a ++ b ++ "s") "s" = true.
Proof.
  unfold endsWith. rewrite last_char_append.
  - rewrite last_char_append; [ reflexivity | discriminate ].
  - destruct b; discriminate.
Qed.

(** X13. [pluralize] of a non-empty name always ends in "s", and
    pluralizing twice changes nothing more: a name that already ends in "s"
    comes back as it is. *)
Theorem pluralize_ends_with_s :
  forall s : string,
    s <> EmptyString ->
    endsWith (pluralize s) "s" = true
    /\ pluralize (pluralize s) = pluralize s
    /\ (endsWith s "s" = true -> pluralize s = s).
Proof.
  intros s Hs.
  assert (Hend : endsWith (pluralize s) "s" = true).
  { destruct s as [|c s]; [ congruence | ].
    unfold pluralize.
    destruct (endsWith (String c s) "s") eqn:E1; [ exact E1 | ].
    destruct (endsWith (String c s) "y" && negb (vowel_before_last (String c s))).
    - apply (endsWith_append_s (drop_last (String c s)) "ie").
    - apply (endsWith_append_s (String c s) ""). }
  split; [ exact Hend | ].
  split; [ apply pluralize_fixed; exact Hend | apply pluralize_fixed ].
Qed.

Lemma pluralize_ends_with_s_witness :
  pluralize "category" = "categories"
  /\ endsWith (pluralize "category") "s" = true
  /\ pluralize "users" = "users".
Proof.
  destruct (pluralize_ends_with_s (s := "category")) as [Hend _]; [ discriminate | ].
  destruct (pluralize_ends_with_s (s := "users")) as [_ [_ Hfixed]]; [ discriminate | ].
  split; [ reflexivity | ]. split; [ exact Hend | ].
  apply Hfixed. reflexivity.
Defined.

(** X14. The plural that names the route directory and the table.  When
    the lower-cased name ends in "s", the script cuts that "s" off and
    pluralizes what is left.  If what is left is non-empty, does not end in
    "s" and does not end in a consonant followed by "y", the plural is the
    lower-cased name again.  If what is left still ends in "s" (as for
    "class" or "address"), the plural is that shortened form: one "s" is
    lost. *)
Theorem plural_of_name_ending_in_s :
  forall raw : string,
    let names := deriveNames raw in
    endsWith (moduleNameLower names) "s" = true ->
    (moduleNameSingularLower names <> EmptyString ->
     endsWith (moduleNameSingularLower names) "s" = false ->
     endsWith (moduleNameSingularLower names) "y"
     && negb (vowel_before_last (moduleNameSingularLower names)) = false ->
     moduleNamePluralLower names = moduleNameLower names)
    /\ (endsWith (moduleNameSingularLower names) "s" = true ->
        moduleNamePluralLower names = moduleNameSingularLower names
        /\ moduleNameLower names = (moduleNamePluralLower names ++ "s")%string).
Proof.
  intros raw names Hlower. subst names.
  change (endsWith (toLowerCase raw) "s" = true) in Hlower.
  unfold deriveNames.
  cbn [moduleNameLower moduleNameSingularLower moduleNamePluralLower].
  rewrite Hlower.
  pose proof (@drop_last_restore (toLowerCase raw) "s" Hlower) as Hrestore.
  split.
  - intros Hne Hs Hy.
    destruct (drop_last (toLowerCase raw)) as [|c rest] eqn:E; [ congruence | ].
    unfold pluralize. rewrite Hs, Hy. exact Hrestore.
  - intros Hs. rewrite (@pluralize_fixed _ Hs).
    split; [ reflexivity | symmetry; exact Hrestore ].
Qed.

Lemma plural_of_name_ending_in_s_witness :
  moduleNamePluralLower (deriveNames "Subscriptions") = "subscriptions"
  /\ moduleNamePluralLower (deriveNames "class") = "clas".
Proof.
  destruct (plural_of_name_ending_in_s "Subscriptions" eq_refl) as [Hback _].
  destruct (plural_of_name_ending_in_s "class" eq_refl) as [_ Hlost].
  split.
  - apply Hback; [ discriminate | reflexivity | reflexivity ].
  - apply (Hlost eq_refl).
Defined.

(** Facts about [split]. *)
Lemma split_parts_satisfy (sep p : ascii -> bool) (s : string) :
  all_chars p s = true ->
  forallb (all_chars (fun c => p c && negb (sep c))) (split sep s) = true.
Proof.
  induction s as [|c s IH]; [ reflexivity | ].
  cbn [all_chars split]. intros H. apply andb_true_iff in H. destruct H as [Hc Hs].
  specialize (IH Hs).
  destruct (sep c) eqn:Hsep.
  - cbn [forallb all_chars]. exact IH.
  - destruct (split sep s) as [|part parts]; cbn [forallb all_chars] in *.
    + rewrite Hc, Hsep. reflexivity.
    + rewrite Hc, Hsep. exact IH.
Qed.

Lemma all_chars_true (s : string) : all_chars (fun _ => true) s = true.
Proof. induction s as [|c s IH]; [ reflexivity | exact IH ]. Qed.

Lemma split_without_separator (sep : ascii -> bool) (s : string) :
  all_chars (fun c => negb (sep c)) s = true -> split sep s = [s].
Proof.
  induction s as [|c s IH]; [ reflexivity | ].
  cbn [all_chars split]. intros H. apply andb_true_iff in H. destruct H as [Hc Hs].
  apply negb_true_iff in Hc. rewrite Hc, (IH Hs). reflexivity.
Qed.

Lemma split_at_separator (sep : ascii -> bool) (a b : string) (c : ascii) :
  all_chars (fun c => negb (sep c)) a = true -> sep c = true ->
  split sep (a ++ String c b) = a :: split sep b.
Proof.
  intros Ha Hc. induction a as [|c0 a IH].
  - cbn [append split]. rewrite Hc. reflexivity.
  - cbn [all_chars] in Ha. apply andb_true_iff in Ha. destruct Ha as [Hc0 Ha].
    apply negb_true_iff in Hc0.
    cbn [append split]. rewrite Hc0, (IH Ha). reflexivity.
Qed.

Lemma split_all_empty (sep : ascii -> bool) (s : string) :
  forallb (fun part => String.eqb part "") (split sep s) = all_chars sep s.
Proof.
  induction s as [|c s IH]; [ reflexivity | ].
  cbn [all_chars split]. destruct (sep c).
  - cbn [forallb]. exact IH.
  - destruct (split sep s); reflexivity.
Qed.

Lemma eqb_empty_append (a b : string) :
  String.eqb (a ++ b) "" = String.eqb a "" && String.eqb b "".
Proof. destruct a; reflexivity. Qed.

Lemma eqb_empty_toLowerCase (s : string) :
  String.eqb (toLowerCase s) "" = String.eqb s "".
Proof. destruct s; reflexivity. Qed.

Lemma eqb_empty_join_capitalize (parts : list string) :
  String.eqb (join (map capitalize parts)) ""
  = forallb (fun part => String.eqb part "") parts.
Proof.
  induction parts as [|part parts IH]; [ reflexivity | ].
  cbn [map join fold_right forallb]. rewrite eqb_empty_append.
  fold (join (map capitalize parts)). rewrite IH.
  destruct part; reflexivity.
Qed.

Lemma toLowerCase_keeps (p q : ascii -> bool) (s : string) :
  (forall c, p c = true -> q (toLowerChar c) = true) ->
  all_chars p s = true -> all_chars q (toLowerCase s) = true.
Proof.
  intros Hpq. induction s as [|c s IH]; [ reflexivity | ].
  cbn [all_chars toLowerCase]. intros H. apply andb_true_iff in H.
  destruct H as [Hc Hs]. rewrite (Hpq c Hc), (IH Hs). reflexivity.
Qed.

Lemma capitalize_keeps (p q : ascii -> bool) (s : string) :
  (forall c, p c = true -> q (toUpperChar c) = true /\ q c = true) ->
  all_chars p s = true -> all_chars q (capitalize s) = true.
Proof.
  intros Hpq. destruct s as [|c s]; [ reflexivity | ].
  cbn [all_chars capitalize]. intros H. apply andb_true_iff in H.
  destruct H as [Hc Hs]. rewrite (proj1 (Hpq c Hc)).
  apply (all_chars_impl p q); [ intros c0 H0; apply (Hpq c0 H0) | exact Hs ].
Qed.

Lemma join_capitalize_keeps (p q : ascii -> bool) (parts : list string) :
  (forall c, p c = true -> q (toUpperChar c) = true /\ q c = true) ->
  forallb (all_chars p) parts = true ->
  all_chars q (join (map capitalize parts)) = true.
Proof.
  intros Hpq. induction parts as [|part parts IH]; [ reflexivity | ].
  cbn [forallb map join fold_right]. intros H. apply andb_true_iff in H.
  destruct H as [Hpart Hparts].
  rewrite all_chars_append. fold (join (map capitalize parts)).
  rewrite (capitalize_keeps p q part Hpq Hpart), (IH Hparts). reflexivity.
Qed.

(** [camelCase] maps the characters of its input through two classes: what
    holds of every non-separator character of the input after lower-casing
    and after upper-casing holds of every character of the result. *)
Lemma camelCase_keeps (p q : ascii -> bool) (s : string) :
  (forall c, p c = true -> is_separator c = false ->
             q (toLowerChar c) = true /\ q (toUpperChar c) = true /\ q c = true) ->
  all_chars p s = true -> all_chars q (camelCase s) = true.
Proof.
  intros Hpq Hs.
  destruct s as [|c s]; [ reflexivity | ].
  unfold camelCase.
  pose proof (split_parts_satisfy is_separator p (String c s) Hs) as Hparts.
  destruct (split is_separator (String c s)) as [|part parts].
  - reflexivity.
  - cbn [hd tl forallb] in *. apply andb_true_iff in Hparts.
    destruct Hparts as [Hpart Hrest].
    rewrite all_chars_append. apply andb_true_iff. split.
    + apply (toLowerCase_keeps (fun c => p c && negb (is_separator c)) q);
        [ | exact Hpart ].
      intros c0 H0. apply andb_true_iff in H0. destruct H0 as [H1 H2].
      apply negb_true_iff in H2. apply (Hpq c0 H1 H2).
    + apply (join_capitalize_keeps (fun c => p c && negb (is_separator c)) q);
        [ | exact Hrest ].
      intros c0 H0. apply andb_true_iff in H0. destruct H0 as [H1 H2].
      apply negb_true_iff in H2. destruct (Hpq c0 H1 H2) as [_ [Hu Hc0]].
      split; assumption.
Qed.

(** X15. The result of [camelCase] contains no separator (hyphen,
    underscore, white space), whatever the input; and an input without
    separators is just lower-cased. *)
Theorem camelCase_removes_separators :
  forall s : string,
    all_chars not_separator (camelCase s) = true
    /\ (all_chars not_separator s = true -> camelCase s = toLowerCase s).
Proof.
  intros s. split.
  - apply (camelCase_keeps (fun _ => true) not_separator); [ | apply all_chars_true ].
    intros c _ Hc. unfold not_separator.
    rewrite toLowerChar_separator, toUpperChar_separator, Hc. repeat split.
  - intros Hclean. destruct s as [|c s]; [ reflexivity | ].
    unfold camelCase.
    rewrite (split_without_separator is_separator (String c s) Hclean).
    cbn [hd tl map join fold_right]. apply append_empty_r.
Qed.

Lemma camelCase_removes_separators_witness :
  camelCase "user-profile_data" = "userProfileData"
  /\ camelCase "UserProfile" = "userprofile".
Proof.
  split; [ reflexivity | ].
  destruct (camelCase_removes_separators "UserProfile") as [_ Hlower].
  apply Hlower. reflexivity.
Defined.

(** X16. [camelCase] returns the empty string exactly when its input
    consists of separators only.  Hence the Pascal and camel names the
    script derives are empty exactly when the singular form has nothing but
    hyphens, underscores or white space in it, which the validation of the
    name does not exclude (the names "s" and "-" pass it). *)
Theorem camelCase_empty_iff_only_separators :
  forall s : string,
    (camelCase s = EmptyString <-> all_chars is_separator s = true)
    /\ (moduleNamePascal (deriveNames s) = EmptyString
        <-> all_chars is_separator (moduleNameSingularLower (deriveNames s)) = true)
    /\ (moduleNameCamel (deriveNames s) = EmptyString
        <-> all_chars is_separator (moduleNameSingularLower (deriveNames s)) = true).
Proof.
  assert (Hcamel : forall s, String.eqb (camelCase s) "" = all_chars is_separator s).
  { intros s. destruct s as [|c s]; [ reflexivity | ].
    unfold camelCase. rewrite eqb_empty_append, eqb_empty_toLowerCase.
    rewrite <- (split_all_empty is_separator (String c s)).
    destruct (split is_separator (String c s)) as [|part parts].
    - reflexivity.
    - cbn [hd tl forallb]. rewrite eqb_empty_join_capitalize. reflexivity. }
  assert (Hiff : forall s, camelCase s = EmptyString
                           <-> all_chars is_separator s = true).
  { intros s. rewrite <- Hcamel. symmetry. apply String.eqb_eq. }
  intros s. split; [ apply Hiff | ]. split.
  - unfold deriveNames. cbn [moduleNamePascal moduleNameSingularLower].
    rewrite <- Hiff. split.
    + destruct (camelCase _); [ reflexivity | discriminate ].
    + intros H. rewrite H. reflexivity.
  - unfold deriveNames. cbn [moduleNameCamel moduleNameSingularLower]. apply Hiff.
Qed.

Lemma camelCase_empty_iff_only_separators_witness :
  valid_module_name "s" = true
  /\ moduleNamePascal (deriveNames "s") = EmptyString
  /\ valid_module_name "-_" = true
  /\ moduleNameCamel (deriveNames "-_") = EmptyString.
Proof.
  destruct (camelCase_empty_iff_only_separators "s") as [_ [Hpascal _]].
  destruct (camelCase_empty_iff_only_separators "-_") as [_ [_ Hcamel]].
  split; [ reflexivity | ]. split; [ apply Hpascal; reflexivity | ].
  split; [ reflexivity | apply Hcamel; reflexivity ].
Defined.

Lemma alnum_upper (c : ascii) :
  is_alnum c = true -> is_alnum (toUpperChar c) = true /\ is_alnum c = true.
Proof. by_enumeration c. Qed.

Lemma lower_name_char_camel (c : ascii) :
  lower_name_char c = true -> is_separator c = false ->
  is_alnum (toLowerChar c) = true /\ is_alnum (toUpperChar c) = true
  /\ is_alnum c = true.
Proof. by_enumeration c. Qed.

Lemma pluralize_keeps_lower_name (s : string) :
  all_chars lower_name_char s = true ->
  all_chars lower_name_char (pluralize s) = true.
Proof.
  intros H. destruct s as [|c s]; [ reflexivity | ].
  unfold pluralize.
  destruct (endsWith (String c s) "s"); [ exact H | ].
  destruct (endsWith (String c s) "y" && negb (vowel_before_last (String c s)));
    rewrite all_chars_append.
  - rewrite (all_chars_drop_last lower_name_char (String c s) H). reflexivity.
  - rewrite H. reflexivity.
Qed.

(** X17. For every name the validation accepts, the names the script
    derives stay in small alphabets: the lower-case, singular and plural
    forms contain only lower-case letters, digits, hyphens and underscores;
    the Pascal and camel forms contain only letters and digits.  None of
    the three forms that go into directory and file names (plural,
    singular, Pascal) contains a slash, a backslash or a dot. *)
Theorem derived_names_alphabet :
  forall raw : string,
    valid_module_name raw = true ->
    let names := deriveNames raw in
    all_chars lower_name_char (moduleNameLower names) = true
    /\ all_chars lower_name_char (moduleNameSingularLower names) = true
    /\ all_chars lower_name_char (moduleNamePluralLower names) = true
    /\ all_chars is_alnum (moduleNameCamel names) = true
    /\ all_chars is_alnum (moduleNamePascal names) = true
    /\ all_chars path_safe_char (moduleNamePluralLower names) = true
    /\ all_chars path_safe_char (moduleNameSingularLower names) = true
    /\ all_chars path_safe_char (moduleNamePascal names) = true.
Proof.
  intros raw Hvalid names. subst names.
  unfold valid_module_name in Hvalid. apply andb_true_iff in Hvalid.
  destruct Hvalid as [_ Hchars].
  unfold deriveNames.
  cbn [moduleNameLower moduleNameSingularLower moduleNamePluralLower
       moduleNameCamel moduleNamePascal].
  assert (Hlower : all_chars lower_name_char (toLowerCase raw) = true).
  { apply (toLowerCase_keeps valid_char lower_name_char);
      [ exact valid_char_lower | exact Hchars ]. }
  set (singular := if endsWith (toLowerCase raw) "s"
                   then drop_last (toLowerCase raw) else toLowerCase raw).
  assert (Hsingular : all_chars lower_name_char singular = true).
  { subst singular. destruct (endsWith (toLowerCase raw) "s");
      [ apply all_chars_drop_last | ]; exact Hlower. }
  assert (Hplural : all_chars lower_name_char (pluralize singular) = true).
  { apply pluralize_keeps_lower_name. exact Hsingular. }
  assert (Hcamel : all_chars is_alnum (camelCase singular) = true).
  { apply (camelCase_keeps lower_name_char is_alnum);
      [ exact lower_name_char_camel | exact Hsingular ]. }
  assert (Hpascal : all_chars is_alnum (capitalize (camelCase singular)) = true).
  { apply (capitalize_keeps is_alnum is_alnum); [ exact alnum_upper | exact Hcamel ]. }
  repeat split; try assumption.
  - apply (all_chars_impl lower_name_char); [ exact lower_name_char_path_safe | exact Hplural ].
  - apply (all_chars_impl lower_name_char); [ exact lower_name_char_path_safe | exact Hsingular ].
  - apply (all_chars_impl is_alnum); [ exact alnum_path_safe | exact Hpascal ].
Qed.

Lemma derived_names_alphabet_witness :
  deriveNames "User-Profiles"
  = {| moduleNameLower := "user-profiles";
       moduleNameSingularLower := "user-profile";
       moduleNamePascal := "UserProfile";
       moduleNameCamel := "userProfile";
       moduleNamePluralLower := "user-profiles" |}
  /\ all_chars is_alnum (moduleNamePascal (deriveNames "User-Profiles")) = true.
Proof.
  split; [ reflexivity | ].
  apply (derived_names_alphabet "User-Profiles" eq_refl).
Defined.

Lemma find_after_misses {A : Type} (f : A -> bool) (before rest : list A) (x : A) :
  (forall a, In a before -> f a = false) -> f x = true ->
  find f (before ++ x :: rest) = Some x.
Proof.
  intros Hbefore Hx. induction before as [|a before IH]; simpl.
  - rewrite Hx. reflexivity.
  - rewrite (Hbefore a (or_introl eq_refl)). apply IH.
    intros a0 H0. apply Hbefore. right. exact H0.
Qed.

Lemma name_flag_prefix (rest : string) :
  String.prefix "--name=" ("--name=" ++ rest) = true.
Proof. destruct rest; reflexivity. Qed.

Lemma valid_name_has_no_equals (name : string) :
  valid_module_name name = true ->
  all_chars (fun c => negb (Ascii.eqb "=" c)) name = true.
Proof.
  intros H. unfold valid_module_name in H. apply andb_true_iff in H.
  destruct H as [_ H].
  apply (all_chars_impl valid_char); [ | exact H ].
  intros c Hc. rewrite (valid_char_not_equals c Hc). reflexivity.
Qed.

(** X18. Reading the name from the command line.  The first argument that
    starts with [--name=] decides, the ones before it are skipped; for a
    valid name the script gets exactly that name back, and whatever follows
    a second [=] in that argument is dropped without notice.  With no such
    argument the script stops; a name that gets through is always valid. *)
Theorem parseModuleName_reads_the_name :
  forall (before rest : list string) (name after : string),
    (forall a, In a before -> String.prefix "--name=" a = false) ->
    valid_module_name name = true ->
    parseModuleName (before ++ ("--name=" ++ name)%string :: rest) = inr name
    /\ parseModuleName (before ++ ("--name=" ++ name ++ "=" ++ after)%string :: rest)
       = inr name
    /\ parseModuleName before = inl MissingName
    /\ (forall args raw, parseModuleName args = inr raw ->
                         valid_module_name raw = true).
Proof.
  intros before rest name after Hbefore Hvalid.
  pose proof (valid_name_has_no_equals name Hvalid) as Hclean.
  split; [ | split; [ | split ] ].
  - unfold parseModuleName.
    rewrite (@find_after_misses _ (fun arg => String.prefix "--name=" arg) before rest
               ("--name=" ++ name)%string Hbefore (name_flag_prefix name)).
    change ("--name=" ++ name)%string with ("--name" ++ String "=" name)%string.
    rewrite (@split_at_separator (Ascii.eqb "=") "--name" name "=");
      [ | reflexivity | reflexivity ].
    rewrite (@split_without_separator (Ascii.eqb "=") name Hclean).
    cbn [nth]. rewrite Hvalid. reflexivity.
  - unfold parseModuleName.
    rewrite (@find_after_misses _ (fun arg => String.prefix "--name=" arg) before rest
               ("--name=" ++ name ++ "=" ++ after)%string Hbefore
               (name_flag_prefix (name ++ "=" ++ after))).
    change ("--name=" ++ name ++ "=" ++ after)%string
      with ("--name" ++ String "=" (name ++ String "=" after))%string.
    rewrite (@split_at_separator (Ascii.eqb "=") "--name" (name ++ String "=" after)
               "="); [ | reflexivity | reflexivity ].
    rewrite (@split_at_separator (Ascii.eqb "=") name after "=" Hclean);
      [ | reflexivity ].
    cbn [nth]. rewrite Hvalid. reflexivity.
  - unfold parseModuleName.
    assert (Hfind : find (fun arg => String.prefix "--name=" arg) before = None).
    { clear -Hbefore. induction before as [|a before IH]; [ reflexivity | ].
      simpl. rewrite (Hbefore a (or_introl eq_refl)). apply IH.
      intros a0 H0. apply Hbefore. right. exact H0. }
    rewrite Hfind. reflexivity.
  - intros args raw. unfold parseModuleName.
    destruct (find (fun arg => String.prefix "--name=" arg) args) as [nameArg|];
      [ | discriminate ].
    destruct (valid_module_name (nth 1 (split (Ascii.eqb "=") nameArg) ""%string))
      eqn:Hv; [ | discriminate ].
    intros H. inversion H; subst raw. exact Hv.
Qed.

Lemma parseModuleName_reads_the_name_witness :
  parseModuleName ["--verbose"; "--name=Subscription"; "--name=Other"]
  = inr "Subscription"%string.
Proof.
  apply (@parseModuleName_reads_the_name ["--verbose"%string] ["--name=Other"%string]
           "Subscription" "ignored").
  - intros a [Ha|[]]. subst a. reflexivity.
  - reflexivity.
Defined.

(** X19. [createDirAndFile] never throws and never overwrites: when the
    target path exists it only warns and leaves the file system as it is;
    otherwise it creates the directory first and writes the file only if
    that succeeded, and a failure of either call is logged, not raised. *)
Theorem createDirAndFile_skips_existing_files :
  forall (FS : Type)
         (existsSync : string -> FS -> bool)
         (mkdirSync : string -> FS -> Outcome unit * FS)
         (writeFileSync : string -> string -> FS -> Outcome unit * FS)
         (path_join : string -> string -> string)
         (path_relative : string -> string)
         (dirPath fileName content : string) (w : World FS),
    let fullPath := path_join dirPath fileName in
    let run := createDirAndFile existsSync mkdirSync writeFileSync path_join
                 path_relative dirPath fileName content w in
    fst run = Returned tt
    /\ (existsSync fullPath (store w) = true ->
        store (snd run) = store w
        /\ trace (snd run)
           = (trace w ++ [EvConsole "warn"
                            ("⚠️  File already exists: " ++ fullPath
                             ++ " (Skipping)")])%list)
    /\ (existsSync fullPath (store w) = false ->
        forall e fs1,
          mkdirSync dirPath (store w) = (Thrown e, fs1) ->
          store (snd run) = fs1)
    /\ (existsSync fullPath (store w) = false ->
        forall fs1,
          mkdirSync dirPath (store w) = (Returned tt, fs1) ->
          store (snd run) = snd (writeFileSync fullPath content fs1)).
Proof.
  intros FS existsSync mkdirSync writeFileSync path_join path_relative
         dirPath fileName content w fullPath run.
  subst run fullPath. unfold createDirAndFile.
  destruct (existsSync (path_join dirPath fileName) (store w)) eqn:Hexists.
  - repeat split; intros; discriminate.
  - unfold try_catch, bind, fs_call, emit.
    destruct (mkdirSync dirPath (store w)) as [[[]|e] fs1] eqn:Hmk; simpl.
    + destruct (writeFileSync (path_join dirPath fileName) content fs1)
        as [[[]|e] fs2] eqn:Hwr; simpl.
      * repeat split; try (intros; discriminate).
        intros _ fs0 H0. inversion H0; subst fs0. rewrite Hwr. reflexivity.
      * repeat split; try (intros; discriminate).
        intros _ fs0 H0. inversion H0; subst fs0. rewrite Hwr. reflexivity.
    + repeat split; try (intros; discriminate).
      intros _ e0 fs0 H0. inversion H0; subst. reflexivity.
Qed.

Lemma createDirAndFile_skips_existing_files_witness :
  let exists_in (p : string) (fs : list (string * string)) :=
        existsb (fun f => String.eqb (fst f) p) fs in
  let run :=
        createDirAndFile exists_in
          (fun _ fs => (Returned tt, fs))
          (fun p content fs => (Returned tt, (p, content) :: fs))
          (fun d f => (d ++ "/" ++ f)%string) (fun p => p)
          "src/domain" "user.ts" "generated"
          {| store := [("src/domain/user.ts"%string, "hand written"%string)];
             now_iso := "2024-06-01T08:30:00.000Z"; trace := [] |} in
  store (snd run) = [("src/domain/user.ts"%string, "hand written"%string)].
Proof.
  intros exists_in run.
  destruct (createDirAndFile_skips_existing_files exists_in
              (fun _ fs => (Returned tt, fs))
              (fun p content fs => (Returned tt, (p, content) :: fs))
              (fun d f => (d ++ "/" ++ f)%string) (fun p => p)
              "src/domain" "user.ts" "generated"
              {| store := [("src/domain/user.ts"%string, "hand written"%string)];
                 now_iso := "2024-06-01T08:30:00.000Z"; trace := [] |})
    as [_ [Hskip _]].
  apply Hskip. reflexivity.
Defined.

End GeneratorFacts.

(* ===================================================================== *)
(** ** Responses: the replies written by the routes' response schemas     *)
(* ===================================================================== *)

Section ResponseFacts.

Variable asString : JsValue -> option JsValue.
Variable asDateTime : JsValue -> option JsValue.
Variable failure_message : string -> string.

(** Writing a reply keeps its status or turns it into a 500. *)
Lemma respond_status (schemas : Z -> option ResponseSchema.t) (reply : Reply) :
  statusCode (ResponseSchema.respond asString asDateTime failure_message schemas reply)
  = statusCode reply
  \/ statusCode (ResponseSchema.respond asString asDateTime failure_message schemas reply)
     = 500.
Proof.
  unfold ResponseSchema.respond.
  destruct (schemas (statusCode reply)) as [schema|]; [ | left; reflexivity ].
  destruct (ResponseSchema.serialize asString asDateTime schema (payload reply));
    [ left | right ]; reflexivity.
Qed.

Hypothesis strings_as_they_are : forall s, asString (JStr s) = Some (JStr s).

(** An error reply of the sensible helpers is written as it is by the
    error schema of its status. *)
Lemma respond_httpError (schemas : Z -> option ResponseSchema.t)
      (status : Z) (label msg : string) :
  schemas status = Some (ResponseSchema.httpError status label) ->
  ResponseSchema.respond asString asDateTime failure_message schemas
    (Sensible.httpError status label msg)
  = Sensible.httpError status label msg.
Proof.
  intros Hschema. unfold ResponseSchema.respond. simpl. rewrite Hschema.
  unfold ResponseSchema.serialize. simpl. rewrite strings_as_they_are. reflexivity.
Qed.

End ResponseFacts.





(** X3. GET /users/:userId over the Supabase repository, once the lookup
    has resolved and given a serializer that writes strings as they are.
    The answer is 400 exactly when the id is empty, and then no query is
    sent.  Otherwise exactly one query is sent, the select by that id: an
    error in the response gives 500 with the fixed database message (even
    if a row came along), no row gives 404; a row whose id and email are
    strings and whose created_at makes a Date the serializer can write
    gives 200 with exactly id, email and created_at; a row without id or
    without email cannot be written by the 200 schema and gives 500.  The
    store is never changed. *)
Theorem get_user_response_table :
  forall (Store : Type) (client : SupabaseClient Store)
         (asString asDateTime : JsValue -> option JsValue)
         (failure_message : string -> string)
         (s : string) (w : World Store) (r : PostgrestResponse),
    (forall str, asString (JStr str) = Some (JStr str)) ->
    select_eq_maybeSingle client "users" "id" s (store w) = Returned r ->
    let run := UserRoutes.get_user_response client asString asDateTime
                 failure_message s w in
    store (snd run) = store w
    /\ (statusCode_of_run run = Some 400 <-> s = "")
    /\ (s = "" ->
        fst run = Returned (Sensible.badRequest "Invalid user ID format provided.")
        /\ filter is_store_query (trace (snd run)) = filter is_store_query (trace w))
    /\ (s <> "" ->
        filter is_store_query (trace (snd run))
        = (filter is_store_query (trace w) ++ [EvSelect "users" "id" s])%list)
    /\ (s <> "" -> error r <> None ->
        fst run = Returned (Sensible.internalServerError
                              "A database error occurred while fetching the user."))
    /\ (s <> "" -> error r = None -> Js.truthy (data r) = false ->
        fst run = Returned (Sensible.notFound ("User with ID " ++ s ++ " not found.")))
    /\ (s <> "" -> error r = None -> Js.truthy (data r) = true ->
        forall id email created,
          Js.get (data r) "id" = JStr id ->
          Js.get (data r) "email" = JStr email ->
          asDateTime (JDate (Js.newDate (Js.get (data r) "created_at"))) = Some created ->
          fst run = Returned {| statusCode := 200;
                                payload := JObj [("id", JStr id);
                                                 ("email", JStr email);
                                                 ("created_at", created)] |})
    /\ (s <> "" -> error r = None -> Js.truthy (data r) = true ->
        Js.get (data r) "id" = JUndefined ->
        fst run = Returned (Sensible.internalServerError (failure_message "id")))
    /\ (s <> "" -> error r = None -> Js.truthy (data r) = true ->
        forall id,
          Js.get (data r) "id" = JStr id ->
          Js.get (data r) "email" = JUndefined ->
          fst run = Returned (Sensible.internalServerError (failure_message "email"))).
Proof.
  intros Store client asString asDateTime failure_message s w r Hstr Hsel run.
  destruct (get_user_decision_table client s w Hsel)
    as [Hstore [H400 [Hempty [Hquery [Herr [Habsent Hfound]]]]]].
  subst run. unfold UserRoutes.get_user_response, bind, ret.
  destruct (UserRoutes.get_user client s w) as [o w1] eqn:Hrun.
  simpl in Hstore, H400, Hempty, Hquery, Herr, Habsent, Hfound.
  destruct o as [reply|e].
  2:{ exfalso. destruct (string_dec s "") as [Hs|Hs].
      - destruct (Hempty Hs) as [H _]. discriminate H.
      - destruct (error r) as [pe|] eqn:He.
        + assert (Hne : Some pe <> None) by discriminate.
          specialize (Herr Hs Hne). discriminate Herr.
        + destruct (Js.truthy (data r)) eqn:Ht.
          * specialize (Hfound Hs eq_refl eq_refl). discriminate Hfound.
          * specialize (Habsent Hs eq_refl eq_refl). discriminate Habsent. }
  simpl.
  assert (Hresp400 : forall msg,
             ResponseSchema.respond asString asDateTime failure_message
               UserRoutes.get_response_schemas (Sensible.badRequest msg)
             = Sensible.badRequest msg).
  { intros msg. apply respond_httpError; [ exact Hstr | reflexivity ]. }
  assert (Hresp404 : forall msg,
             ResponseSchema.respond asString asDateTime failure_message
               UserRoutes.get_response_schemas (Sensible.notFound msg)
             = Sensible.notFound msg).
  { intros msg. apply respond_httpError; [ exact Hstr | reflexivity ]. }
  assert (Hresp500 : forall msg,
             ResponseSchema.respond asString asDateTime failure_message
               UserRoutes.get_response_schemas (Sensible.internalServerError msg)
             = Sensible.internalServerError msg).
  { intros msg. apply respond_httpError; [ exact Hstr | reflexivity ]. }
  split; [ exact Hstore | ].
  split.
  { unfold statusCode_of_run in *. simpl in *. split.
    - intros H. apply H400.
      destruct (respond_status asString asDateTime failure_message
                  UserRoutes.get_response_schemas reply) as [Hsame|H500].
      + rewrite <- Hsame. exact H.
      + rewrite H500 in H. discriminate H.
    - intros Hs. destruct (Hempty Hs) as [Hreply _].
      inversion Hreply; subst reply. rewrite Hresp400. reflexivity. }
  split.
  { intros Hs. destruct (Hempty Hs) as [Hreply Htrace].
    inversion Hreply; subst reply. rewrite Hresp400. split; [ reflexivity | exact Htrace ]. }
  split; [ exact Hquery | ].
  split.
  { intros Hs He. specialize (Herr Hs He). inversion Herr; subst reply.
    rewrite Hresp500. reflexivity. }
  split.
  { intros Hs He Ht. specialize (Habsent Hs He Ht). inversion Habsent; subst reply.
    rewrite Hresp404. reflexivity. }
  split; [ | split ].
  - intros Hs He Ht id email created Hid Hemail Hcreated.
    specialize (Hfound Hs He Ht). inversion Hfound; subst reply.
    unfold ResponseSchema.respond, ResponseSchema.serialize. simpl.
    rewrite Hid, Hemail. simpl. rewrite !Hstr, Hcreated. reflexivity.
  - intros Hs He Ht Hid.
    specialize (Hfound Hs He Ht). inversion Hfound; subst reply.
    unfold ResponseSchema.respond, ResponseSchema.serialize. simpl.
    rewrite Hid. reflexivity.
  - intros Hs He Ht id Hid Hemail.
    specialize (Hfound Hs He Ht). inversion Hfound; subst reply.
    unfold ResponseSchema.respond, ResponseSchema.serialize. simpl.
    rewrite Hid, Hemail. simpl. rewrite Hstr. reflexivity.
Qed.

Lemma get_user_response_table_witness :
  fst (UserRoutes.get_user_response MemStore.client (fun v => Some v)
         (fun v => Some v) (fun key => key)
         "7d3f1c1e-0000-4000-8000-000000000001" (MemStore.world_of MemStore.one_user))
  = Returned {| statusCode := 200;
                payload := JObj [("id", JStr "7d3f1c1e-0000-4000-8000-000000000001");
                                 ("email", JStr "alice@example.com");
                                 ("created_at",
                                  JDate (DateParse "2024-05-01T10:00:00.000Z"))] |}
  /\ fst (UserRoutes.get_user_response MemStore.client (fun v => Some v)
            (fun v => Some v) (fun key => key) "u1"
            (MemStore.world_of MemStore.bare_store))
     = Returned (Sensible.internalServerError "email").
Proof.
  split.
  - destruct (get_user_response_table MemStore.client (fun v => Some v)
                (fun v => Some v) (fun key => key)
                "7d3f1c1e-0000-4000-8000-000000000001"
                (MemStore.world_of MemStore.one_user)
                (r := {| data := MemStore.alice_row; error := None |})
                (fun str => eq_refl) eq_refl)
      as [_ [_ [_ [_ [_ [_ [Hfound _]]]]]]].
    apply Hfound; try reflexivity. discriminate.
  - destruct (get_user_response_table MemStore.client (fun v => Some v)
                (fun v => Some v) (fun key => key) "u1"
                (MemStore.world_of MemStore.bare_store)
                (r := {| data := MemStore.bare_row; error := None |})
                (fun str => eq_refl) eq_refl)
      as [_ [_ [_ [_ [_ [_ [_ [_ Hnoemail]]]]]]]].
    apply (Hnoemail ltac:(discriminate) eq_refl eq_refl "u1" eq_refl eq_refl).
Defined.

(** X5. POST /users, when the pre-check came back clean and the insert
    resolved with a row and no error, given a serializer that writes
    strings as they are.  If the id and the email of the stored row are
    strings, the answer is 201 and its body is exactly that id and that
    email, read off the stored row and not off the request: no created_at,
    no password.  If the stored row has no id, or no email, the 201 schema
    cannot be written and the answer is 500.  In either case the store is
    left as the insert left it. *)
Theorem post_user_response_created :
  forall (Store : Type) (client : SupabaseClient Store)
         (asString asDateTime : JsValue -> option JsValue)
         (failure_message : string -> string)
         (userData : CreateUserDTO.t) (w : World Store)
         (row : JsValue) (s' : Store),
    (forall str, asString (JStr str) = Some (JStr str)) ->
    precheck_clean client (CreateUserDTO.email userData) (store w) = true ->
    insert_select_single client "users"
      (SupabaseUserRepository.dbData_of userData) (store w)
    = (Returned {| data := row; error := None |}, s') ->
    Js.truthy row = true ->
    let run := UserRoutes.post_user_response client asString asDateTime
                 failure_message userData w in
    store (snd run) = s'
    /\ (forall id email,
           Js.get row "id" = JStr id ->
           Js.get row "email" = JStr email ->
           fst run = Returned {| statusCode := 201;
                                 payload := JObj [("id", JStr id);
                                                  ("email", JStr email)] |})
    /\ (Js.get row "id" = JUndefined ->
        fst run = Returned (Sensible.internalServerError (failure_message "id")))
    /\ (forall id,
           Js.get row "id" = JStr id ->
           Js.get row "email" = JUndefined ->
           fst run = Returned (Sensible.internalServerError (failure_message "email"))).
Proof.
  intros Store client asString asDateTime failure_message userData w row s'
         Hstr Hclean Hins Hrow run.
  destruct (post_user_created_from_stored_row client userData w Hclean Hins Hrow)
    as [Hreply Hstore].
  subst run. unfold UserRoutes.post_user_response, bind, ret.
  destruct (UserRoutes.post_user client userData w) as [o w1].
  simpl in Hreply, Hstore. subst o. simpl.
  split; [ exact Hstore | ].
  unfold ResponseSchema.respond, ResponseSchema.serialize. simpl.
  split; [ | split ].
  - intros id email Hid Hemail. rewrite Hid, Hemail. simpl. rewrite !Hstr. reflexivity.
  - intros Hid. rewrite Hid. reflexivity.
  - intros id Hid Hemail. rewrite Hid, Hemail. simpl. rewrite Hstr. reflexivity.
Qed.

Lemma post_user_response_created_witness :
  fst (UserRoutes.post_user_response MemStore.client (fun v => Some v)
         (fun v => Some v) (fun key => key) MemStore.bob
         (MemStore.world_of MemStore.one_user))
  = Returned {| statusCode := 201;
                payload := JObj [("id", JStr "7d3f1c1e-0000-4000-8000-000000000002");
                                 ("email", JStr "bob@example.com")] |}.
Proof.
  destruct (post_user_response_created MemStore.client (fun v => Some v)
              (fun v => Some v) (fun key => key) MemStore.bob
              (MemStore.world_of MemStore.one_user)
              (row := JObj [("id", JStr "7d3f1c1e-0000-4000-8000-000000000002");
                            ("email", JStr "bob@example.com");
                            ("username", JStr "bob");
                            ("password", JStr "hunter2hunter2");
                            ("created_at", JStr "2024-06-01T08:30:00.000Z");
                            ("updated_at", JStr "2024-06-01T08:30:00.000Z")])
              (fun str => eq_refl) eq_refl eq_refl eq_refl)
    as [_ [Hcreated _]].
  apply Hcreated; reflexivity.
Defined.

(** X8. GET /health, once the reachability check has resolved, given a
    serializer that writes strings as they are.  The handler sends exactly
    one query, the head count on users, and leaves the store alone.  When
    the check came back with an error, the text of that error goes to the
    request log, in the error handed to the logger, and nowhere else: the
    response is 503 and its body has no [error] property. *)
Theorem health_failure_goes_to_the_log :
  forall (Store : Type) (client : SupabaseClient Store)
         (asString asDateTime : JsValue -> option JsValue)
         (failure_message : string -> string) (w : World Store)
         (r : PostgrestResponse),
    (forall s, asString (JStr s) = Some (JStr s)) ->
    (forall s, asDateTime (JStr s) = Some (JStr s)) ->
    select_head_count client "users" (store w) = Returned r ->
    let run := Health.get_health client asString asDateTime failure_message w in
    store (snd run) = store w
    /\ filter is_store_query (trace (snd run))
       = (filter is_store_query (trace w) ++ [EvHeadCount "users"])%list
    /\ (error r = None ->
        trace (snd run) = (trace w ++ [EvHeadCount "users"])%list
        /\ statusCode_of_run run = Some 200)
    /\ (forall e,
           error r = Some e ->
           trace (snd run)
           = (trace w ++ [EvHeadCount "users";
                          EvRequestLog "error" "Health check failed"
                            (Some (PlainError ("Supabase reachability check failed: "
                                               ++ pg_message e)))])%list
           /\ statusCode_of_run run = Some 503
           /\ Js.has (payload_of_run run) "error" = false
           /\ Js.keys (payload_of_run run) = ["status"; "message"; "timestamp"]).
Proof.
  intros Store client asString asDateTime failure_message w r Hstr Hdt Hr run.
  subst run.
  unfold Health.get_health, Health.handler, Health.query_head_count,
    try_catch, bind, emit, read_clock, ret, statusCode_of_run, payload_of_run,
    ResponseSchema.respond, ResponseSchema.serialize.
  simpl. rewrite Hr. destruct r as [d [e|]]; simpl.
  - rewrite !Hstr, !Hdt. simpl.
    rewrite !filter_app. simpl. rewrite app_nil_r.
    split; [ reflexivity | ]. split; [ reflexivity | ].
    split; [ intros H; discriminate H | ].
    intros e1 He1. inversion He1; subst e1.
    rewrite <- app_assoc. repeat split.
  - rewrite !Hstr, !Hdt. simpl.
    rewrite !filter_app. simpl.
    repeat split; try (intros; discriminate).
Qed.

Lemma health_failure_goes_to_the_log_witness :
  trace (snd (Health.get_health MemStore.client (fun v => Some v) (fun v => Some v)
                (fun key => key) (MemStore.world_of MemStore.unreachable)))
  = [EvHeadCount "users";
     EvRequestLog "error" "Health check failed"
       (Some (PlainError "Supabase reachability check failed: TypeError: fetch failed"))].
Proof.
  destruct (health_failure_goes_to_the_log MemStore.client (fun v => Some v)
              (fun v => Some v) (fun key => key)
              (MemStore.world_of MemStore.unreachable)
              (r := {| data := JNull; error := Some MemStore.network_error |})
              (fun s => eq_refl) (fun s => eq_refl) eq_refl)
    as [_ [_ [_ Herror]]].
  destruct (Herror MemStore.network_error eq_refl) as [Htrace _].
  exact Htrace.
Defined.

(** X20. Round trip through the service.  After [createUser] returned the
    entity of a freshly inserted row, if the store returns that row for the
    lookup by its id (a non-empty string), [getUserById] of that id returns
    the very same entity, field for field. *)
Theorem create_then_read_same_entity :
  forall (Store : Type) (client : SupabaseClient Store)
         (userData : CreateUserDTO.t) (w : World Store)
         (row : JsValue) (s' : Store) (id : string),
    precheck_clean client (CreateUserDTO.email userData) (store w) = true ->
    insert_select_single client "users"
      (SupabaseUserRepository.dbData_of userData) (store w)
    = (Returned {| data := row; error := None |}, s') ->
    Js.truthy row = true ->
    Js.get row "id" = JStr id ->
    id <> "" ->
    select_eq_maybeSingle client "users" "id" id s'
    = Returned {| data := row; error := None |} ->
    let created := UserService.createUser (UserRoutes.userRepository client) userData w in
    let read := UserService.getUserById (UserRoutes.userRepository client) (JStr id)
                  (snd created) in
    exists u,
      fst created = Returned u
      /\ fst read = Returned (Some u)
      /\ User.id u = JStr id
      /\ User.email u = Js.get row "email"
      /\ store (snd read) = s'.
Proof.
  intros Store client userData w row s' id Hclean Hins Hrow Hid Hne Hsel created read.
  assert (Hcreated : fst created
                     = Returned {| User.id := Js.get row "id";
                                   User.username := Js.get row "username";
                                   User.email := Js.get row "email";
                                   User.password := Js.get row "password";
                                   User.created_at := Js.newDate (Js.get row "created_at");
                                   User.updated_at := Js.newDate (Js.get row "updated_at") |}
                     /\ store (snd created) = s').
  { subst created. rewrite createUser_run. unfold precheck_clean in Hclean.
    destruct (select_eq_maybeSingle client "users" "email"
                (CreateUserDTO.email userData) (store w)) as [[d [e|]]|e];
      try discriminate Hclean.
    simpl in *. destruct (Js.truthy d); [ discriminate Hclean | ].
    pose proof (create_outcome client userData (after_precheck userData w)) as Hout.
    destruct (create_sends_one_insert client userData (after_precheck userData w))
      as [_ Hstore].
    simpl in Hout, Hstore. rewrite Hins in Hout, Hstore. simpl in Hout, Hstore.
    unfold SupabaseUserRepository.mapToDomain in Hout. rewrite Hrow in Hout.
    simpl in Hout.
    destruct (SupabaseUserRepository.create client userData (after_precheck userData w))
      as [[u|e] w2]; simpl in *; [ | discriminate Hout ].
    split; assumption. }
  destruct Hcreated as [Hu Hstore].
  eexists. split; [ exact Hu | ].
  subst read.
  rewrite (getUserById_delegates (UserRoutes.userRepository client) (snd created) Hne).
  unfold UserRoutes.userRepository, SupabaseUserRepository.repository. simpl.
  rewrite findById_run, Hstore, Hsel. simpl.
  unfold SupabaseUserRepository.mapToDomain. rewrite Hrow. simpl.
  repeat split; [ exact Hid | exact Hstore ].
Qed.

Lemma create_then_read_same_entity_witness :
  exists u,
    fst (UserService.createUser (UserRoutes.userRepository MemStore.client)
           MemStore.bob (MemStore.world_of MemStore.one_user)) = Returned u
    /\ fst (UserService.getUserById (UserRoutes.userRepository MemStore.client)
              (JStr "7d3f1c1e-0000-4000-8000-000000000002")
              (snd (UserService.createUser (UserRoutes.userRepository MemStore.client)
                      MemStore.bob (MemStore.world_of MemStore.one_user))))
       = Returned (Some u).
Proof.
  destruct (create_then_read_same_entity MemStore.client MemStore.bob
              (MemStore.world_of MemStore.one_user)
              (row := JObj [("id", JStr "7d3f1c1e-0000-4000-8000-000000000002");
                            ("email", JStr "bob@example.com");
                            ("username", JStr "bob");
                            ("password", JStr "hunter2hunter2");
                            ("created_at", JStr "2024-06-01T08:30:00.000Z");
                            ("updated_at", JStr "2024-06-01T08:30:00.000Z")])
              (id := "7d3f1c1e-0000-4000-8000-000000000002")
              eq_refl eq_refl eq_refl eq_refl)
    as [u [Hcreated [Hread _]]].
  - discriminate.
  - reflexivity.
  - exists u. split; assumption.
Defined.
